(** * Pastas statistics module ([pastas/stats.py]): shallow embedding

    The class [Statistics] computes goodness-of-fit diagnostics from four
    series handed out by a calibrated model [ml] (observations, simulation,
    residuals, innovations) and from its parameter table.

    Numbers.  The Python code computes with IEEE doubles.  Here a finite
    double is an exact rational ([Q]); rounding and overflow are abstracted
    away, so sums and means do not depend on the order of their terms.  The
    special values the code relies on are kept: a cell of a pandas series is
    [option Q] with [None] for NaN (a missing value), and a scalar result is
    a [Float], which adds the two infinities that numpy division produces.
    The orderings and equalities stated in the second half of the file are
    chosen among those that rounding keeps: bounds that follow from the
    monotonicity of every rounded operation, and equalities between two
    evaluations of the same expression on the same inputs.

    Failure.  Python exceptions are values of [exn]; fallible code lives in
    the error monad [Result].

    Library code.  pandas operations with a simple documented meaning
    (daily and annual resampling, [dropna], [ffill], [bfill], linear
    interpolation, [mean], [median], [quantile], [nlargest], [nsmallest],
    [var]) are modelled by executable functions.  Numerical primitives that
    have no rational model (square root, logarithm, correlation matrix,
    the statsmodels Durbin-Watson statistic, scipy interpolation) are fields
    of the class [Primitives]. *)

From Stdlib Require Import ZArith QArith Qround String List Bool Lia Lqa.
From Stdlib Require Import Sorting.Sorted.
From Stdlib Require Finite.
Import ListNotations.

Local Open Scope Z_scope.

(** ** Exceptions and the error monad *)

Inductive exn : Type :=
| ValueError (msg : string)
| KeyError (key : string)
| AttributeError (name : string)
| ZeroDivisionError
| Unsupported (member : string)   (* a member whose result is not a scalar *)
| ProviderError (msg : string).   (* whatever the model object raises *)

Inductive Result (A : Type) : Type :=
| Ok (a : A)
| Raise (e : exn).

Arguments Ok {A} a.
Arguments Raise {A} e.

Definition bind {A B : Type} (m : Result A) (f : A -> Result B) : Result B :=
  match m with
  | Ok a => f a
  | Raise e => Raise e
  end.

Declare Scope result_scope.
Delimit Scope result_scope with result.
Notation "x <- m ;; k" := (bind m (fun x => k))
  (at level 61, m at next level, right associativity) : result_scope.
Local Open Scope result_scope.

Fixpoint mapM {A B : Type} (f : A -> Result B) (l : list A) : Result (list B) :=
  match l with
  | [] => Ok []
  | a :: r => b <- f a ;; bs <- mapM f r ;; Ok (b :: bs)
  end.

(** ** Floats *)

Inductive Float : Type :=
| Fin (q : Q)
| PInf
| NInf
| NaN.

Definition Cell : Type := option Q.

Definition of_cell (c : Cell) : Float :=
  match c with
  | Some q => Fin q
  | None => NaN
  end.

Definition Qsign (q : Q) : comparison := (Qnum q ?= 0)%Z.

Definition fneg (x : Float) : Float :=
  match x with
  | Fin q => Fin (- q)
  | PInf => NInf
  | NInf => PInf
  | NaN => NaN
  end.

Definition fadd (x y : Float) : Float :=
  match x, y with
  | NaN, _ | _, NaN => NaN
  | Fin a, Fin b => Fin (a + b)
  | PInf, NInf | NInf, PInf => NaN
  | PInf, _ | _, PInf => PInf
  | NInf, _ | _, NInf => NInf
  end.

Definition fsub (x y : Float) : Float := fadd x (fneg y).

Definition inf_of_sign (c : comparison) : Float :=
  match c with
  | Gt => PInf
  | Lt => NInf
  | Eq => NaN
  end.

Definition fsign (x : Float) : comparison :=
  match x with
  | Fin q => Qsign q
  | PInf => Gt
  | NInf => Lt
  | NaN => Eq
  end.

Definition sign_mul (a b : comparison) : comparison :=
  match a, b with
  | Eq, _ | _, Eq => Eq
  | Gt, c => c
  | Lt, c => CompOpp c
  end.

Definition fmul (x y : Float) : Float :=
  match x, y with
  | NaN, _ | _, NaN => NaN
  | Fin a, Fin b => Fin (a * b)
  | _, _ => inf_of_sign (sign_mul (fsign x) (fsign y))
  end.

(** numpy division of doubles: a zero divisor gives an infinity of the sign
    of the dividend, or NaN for 0/0; nothing is raised. *)
Definition fdiv (x y : Float) : Float :=
  match x, y with
  | NaN, _ | _, NaN => NaN
  | Fin a, Fin b =>
      if Qeq_bool b 0 then inf_of_sign (Qsign a) else Fin (a / b)
  | Fin _, _ => Fin 0
  | _, Fin b =>
      match Qsign b with
      | Lt => fneg x
      | _ => x
      end
  | _, _ => NaN
  end.

(** [x > y] on doubles; false as soon as one side is NaN. *)
Definition fgtb (x y : Float) : bool :=
  match x, y with
  | NaN, _ | _, NaN => false
  | Fin a, Fin b => negb (Qle_bool a b)
  | PInf, PInf => false
  | PInf, _ => true
  | _, NInf => match x with NInf => false | _ => true end
  | _, _ => false
  end.

(** Python's builtin [max(a, b)]: keeps [a] unless [b > a]. *)
Definition py_max (a b : Float) : Float := if fgtb b a then b else a.


(** Equality of results up to the representation of rationals. *)
Definition feq (x y : Float) : Prop :=
  match x, y with
  | Fin a, Fin b => (a == b)%Q
  | PInf, PInf | NInf, NInf | NaN, NaN => True
  | _, _ => False
  end.

(** ** Timestamps and the proleptic Gregorian calendar *)

Record Timestamp : Type := mkTimestamp {
  ts_date : Z;    (* days since 1970-01-01 *)
  ts_time : Z     (* nanoseconds since midnight *)
}.

Definition midnight (d : Z) : Timestamp := mkTimestamp d 0.

Record Civil : Type := mkCivil { c_year : Z; c_month : Z; c_day : Z }.

Definition civil_from_days (days : Z) : Civil :=
  let z := days + 719468 in
  let era := z / 146097 in
  let doe := z - era * 146097 in
  let yoe := (doe - doe / 1460 + doe / 36524 - doe / 146096) / 365 in
  let y := yoe + era * 400 in
  let doy := doe - (365 * yoe + yoe / 4 - yoe / 100) in
  let mp := (5 * doy + 2) / 153 in
  let d := doy - (153 * mp + 2) / 5 + 1 in
  let m := if mp <? 10 then mp + 3 else mp - 9 in
  mkCivil (if m <=? 2 then y + 1 else y) m d.

Definition days_from_civil (y m d : Z) : Z :=
  let y' := if m <=? 2 then y - 1 else y in
  let era := y' / 400 in
  let yoe := y' - era * 400 in
  let mp := if m >? 2 then m - 3 else m + 9 in
  let doy := (153 * mp + 2) / 5 + d - 1 in
  let doe := yoe * 365 + yoe / 4 - yoe / 100 + doy in
  era * 146097 + doe - 719468.

Definition year (t : Timestamp) : Z := c_year (civil_from_days (ts_date t)).
Definition month (t : Timestamp) : Z := c_month (civil_from_days (ts_date t)).
Definition day (t : Timestamp) : Z := c_day (civil_from_days (ts_date t)).

(** A timestamp at midnight of a calendar date, for writing examples. *)
Definition on (y m d : Z) : Timestamp := midnight (days_from_civil y m d).

(** ** Series and the pandas operations used by the module *)

Definition Series : Type := list (Timestamp * Cell).

Definition index (s : Series) : list Timestamp := map fst s.
Definition values (s : Series) : list Cell := map snd s.

(** The non-missing values of a list of cells, in order. *)
Fixpoint valid (l : list Cell) : list Q :=
  match l with
  | [] => []
  | Some q :: r => q :: valid r
  | None :: r => valid r
  end.

Definition Qsum (l : list Q) : Q := fold_right Qplus 0%Q l.

Definition Qlen (l : list Q) : Q := inject_Z (Z.of_nat (length l)).

(** Mean of the non-missing values; NaN when there is none. *)
Definition mean_valid (l : list Q) : Cell :=
  match l with
  | [] => None
  | _ => Some (Qsum l / Qlen l)%Q
  end.

(** [Series.mean()], which skips NaN. *)
Definition series_mean (s : Series) : Cell := mean_valid (valid (values s)).

Fixpoint insert_sorted (x : Q) (l : list Q) : list Q :=
  match l with
  | [] => [x]
  | y :: r => if Qle_bool x y then x :: l else y :: insert_sorted x r
  end.

Definition sort_values (l : list Q) : list Q := fold_right insert_sorted [] l.

(** Median of the non-missing values; NaN when there is none. *)
Definition median_valid (l : list Q) : Cell :=
  let s := sort_values l in
  let n := length s in
  match n with
  | O => None
  | _ =>
      if Nat.odd n then Some (nth (n / 2)%nat s 0%Q)
      else Some ((nth (n / 2 - 1)%nat s 0 + nth (n / 2)%nat s 0) / 2)%Q
  end.

(** [Series.median()], which skips NaN. *)
Definition series_median (s : Series) : Cell := median_valid (valid (values s)).

(** [Series.quantile(q)] with linear interpolation between order statistics. *)
Definition series_quantile (q : Q) (s : Series) : Result Cell :=
  if Qle_bool 0 q && Qle_bool q 1 then
    let v := sort_values (valid (values s)) in
    match v with
    | [] => Ok None
    | _ =>
        let pos := (q * (Qlen v - 1))%Q in
        let i := Z.to_nat (Qfloor pos) in
        let frac := (pos - inject_Z (Qfloor pos))%Q in
        let lo := nth i v 0%Q in
        let hi := nth (S i) v lo in
        Ok (Some (lo + (hi - lo) * frac)%Q)
    end
  else Raise (ValueError "percentiles should all be in the interval [0, 1]").

(** [np.var(series)]: population variance (ddof 0) of the non-missing values. *)
Definition np_var (s : Series) : Float :=
  let v := valid (values s) in
  match mean_valid v with
  | None => NaN
  | Some m => of_cell (mean_valid (map (fun x => (x - m) * (x - m))%Q v))
  end.

(** [series ** 2.0], cell by cell. *)
Definition series_sq (s : Series) : Series :=
  map (fun p => (fst p, option_map (fun x => x * x)%Q (snd p))) s.

(** [series - c] for a scalar [c], cell by cell. *)
Definition series_sub_scalar (s : Series) (c : Cell) : Series :=
  map (fun p => (fst p,
                 match snd p, c with
                 | Some x, Some m => Some (x - m)%Q
                 | _, _ => None
                 end)) s.

(** Python's builtin [sum] over a series: a left fold from 0 that does not
    skip NaN. *)
Definition py_sum (s : Series) : Float :=
  fold_left (fun acc c => fadd acc (of_cell c)) (values s) (Fin 0).

(** [series.size] *)
Definition size (s : Series) : Z := Z.of_nat (length s).

(** [series.dropna()] *)
Definition dropna (s : Series) : Series :=
  filter (fun p => match snd p with Some _ => true | None => false end) s.

(** [series.loc[mask]] for a mask computed from the index. *)
Definition loc_mask (mask : Timestamp -> bool) (s : Series) : Series :=
  filter (fun p => mask (fst p)) s.

(** [np.any(mask)] *)
Definition np_any (mask : Timestamp -> bool) (s : Series) : bool :=
  existsb mask (index s).

Definition zrange (lo : Z) (n : nat) : list Z :=
  map (fun i => lo + Z.of_nat i) (seq 0 n).

Definition Zmin_list (d : Z) (l : list Z) : Z := fold_right Z.min d l.
Definition Zmax_list (d : Z) (l : list Z) : Z := fold_right Z.max d l.

(** The consecutive integers from the least to the greatest key of a
    non-empty list. *)
Definition span (keys : list Z) : list Z :=
  match keys with
  | [] => []
  | k :: r =>
      let lo := Zmin_list k r in
      let hi := Zmax_list k r in
      zrange lo (Z.to_nat (hi - lo + 1))
  end.

(** [series.resample('d').agg()]: one row per calendar day from the first to
    the last day of the series, labelled by midnight; [agg] sees the
    non-missing values that fall on that day. *)
Definition resample_d (agg : list Q -> Cell) (s : Series) : Series :=
  map (fun d =>
         (midnight d,
          agg (valid (values (filter (fun p => ts_date (fst p) =? d) s)))))
      (span (map ts_date (index s))).

(** [series.resample('a').apply(year_agg)]: one row per calendar year from the
    first to the last year of the series, labelled 31 December; [year_agg]
    sees the sub-series of that year. *)
Definition resample_a (year_agg : Series -> Cell) (s : Series) : Series :=
  map (fun y =>
         (on y 12 31, year_agg (filter (fun p => year (fst p) =? y) s)))
      (span (map year (index s))).

(** A [limit] argument, as pandas checks it on a series that is not empty:
    [None], or a positive number of cells. *)
Definition check_limit (limit : option Z) : Result (option nat) :=
  match limit with
  | None => Ok None
  | Some l =>
      if l <=? 0 then Raise (ValueError "Limit must be greater than 0")
      else Ok (Some (Z.to_nat l))
  end.

Definition within (limit : option nat) (n : nat) : bool :=
  match limit with
  | None => true
  | Some l => (n <=? l)%nat
  end.

(** [series.ffill(limit)]: [last] is the last valid value seen, [run] the
    number of missing cells since then. *)
Fixpoint ffill_from (limit : option nat) (last : Cell) (run : nat) (s : Series)
  : Series :=
  match s with
  | [] => []
  | (t, Some v) :: r => (t, Some v) :: ffill_from limit (Some v) 0 r
  | (t, None) :: r =>
      (t, if within limit (S run) then last else None)
        :: ffill_from limit last (S run) r
  end.

Definition ffill (limit : option nat) (s : Series) : Series :=
  ffill_from limit None 0 s.

(** [series.bfill(limit)] *)
Definition bfill (limit : option nat) (s : Series) : Series :=
  rev (ffill limit (rev s)).

(** The next valid value of a series and the number of missing cells before it. *)
Fixpoint next_valid (s : Series) : option (nat * Q) :=
  match s with
  | [] => None
  | (_, Some v) :: _ => Some (O, v)
  | (_, None) :: r =>
      match next_valid r with
      | Some (k, v) => Some (S k, v)
      | None => None
      end
  end.

Definition Qnat (n : nat) : Q := inject_Z (Z.of_nat n).

(** [series.interpolate(method='linear', limit)]: cells are taken as equally
    spaced; leading missing cells stay missing, trailing ones repeat the last
    valid value, and in every gap only the first [limit] cells are filled. *)
Fixpoint interpolate_from (limit : option nat) (last : Cell) (run : nat)
  (s : Series) : Series :=
  match s with
  | [] => []
  | (t, Some v) :: r => (t, Some v) :: interpolate_from limit (Some v) 0 r
  | (t, None) :: r =>
      let c :=
        match last with
        | None => None
        | Some a =>
            if within limit (S run) then
              match next_valid r with
              | Some (k, b) =>
                  Some (a + (b - a) * Qnat (S run) / Qnat (S run + S k))%Q
              | None => Some a
              end
            else None
        end in
      (t, c) :: interpolate_from limit last (S run) r
  end.

Definition interpolate_linear (limit : option nat) (s : Series) : Series :=
  interpolate_from limit None 0 s.

(** [series.nlargest(n)] and [series.nsmallest(n)]: NaN is dropped; only the
    values matter to the callers. *)
Definition nsmallest (n : nat) (s : Series) : list Q :=
  firstn n (sort_values (valid (values s))).

Definition nlargest (n : nat) (s : Series) : list Q :=
  firstn n (rev (sort_values (valid (values s)))).

(** ** The model object and the numerical library *)

Record Param : Type := mkParam {
  p_name : string;
  p_value : Q;
  p_vary : bool
}.

(** What [Statistics] reads from [self.ml].  [nparam] is an attribute of the
    model of its own; the methods of the model can raise. *)
Record Model : Type := mkModel {
  observations : option Timestamp -> option Timestamp -> Result Series;
  simulate : option Timestamp -> option Timestamp -> Result Series;
  residuals : option Timestamp -> option Timestamp -> Result Series;
  innovations : option Timestamp -> option Timestamp -> Result Series;
  parameters : list Param;
  nparam : Z
}.

Class Primitives : Type := {
  np_sqrt : Float -> Float;
  np_log : Float -> Float;
  (* np.corrcoef(x, y)[0, 1] *)
  np_corrcoef : Series -> Series -> Float;
  (* statsmodels.stats.stattools.durbin_watson *)
  sm_durbin_watson : Series -> Float;
  (* series.interpolate(method, limit) for a method other than 'linear' *)
  interpolate_other : string -> option Z -> Series -> Result Series
}.

Local Open Scope string_scope.

(** What [gxg] returns: a scalar, or the series of yearly values. *)
Inductive GxgOut : Type :=
| Scalar (c : Cell)
| Yearly (s : Series).

(** A one-row [DataFrame] with index [[0]], as built by [many]. *)
Record Row : Type := mkRow {
  columns : list string;
  row0 : list Float
}.

(** [row[k] = v] on a row with labels [cols]: every cell labelled [k]. *)
Fixpoint setitem (k : string) (v : Float) (cols : list string) (row : list Float)
  : list Float :=
  match cols, row with
  | c :: cols', x :: row' =>
      (if String.eqb c k then v else x) :: setitem k v cols' row'
  | _, _ => row
  end.

(** Python's ordering of tuples of three strings. *)
Definition triple_leb (a b : string * string * string) : bool :=
  let '(a1, a2, a3) := a in
  let '(b1, b2, b3) := b in
  match String.compare a1 b1 with
  | Lt => true
  | Gt => false
  | Eq =>
      match String.compare a2 b2 with
      | Lt => true
      | Gt => false
      | Eq => String.leb a3 b3
      end
  end.

Fixpoint insert_triple (x : string * string * string)
  (l : list (string * string * string)) : list (string * string * string) :=
  match l with
  | [] => [x]
  | y :: r => if triple_leb x y then x :: l else y :: insert_triple x r
  end.

(** [sorted(...)] on a list of such tuples. *)
Definition sorted (l : list (string * string * string))
  : list (string * string * string) :=
  fold_right insert_triple [] l.

Definition timestamp_eqb (a b : Timestamp) : bool :=
  (ts_date a =? ts_date b)%Z && (ts_time a =? ts_time b)%Z.

(** [series[labels]]: the rows with these labels, in the order of [labels];
    a label that is absent raises. *)
Fixpoint getitem_labels (s : Series) (labels : list Timestamp) : Result Series :=
  match labels with
  | [] => Ok []
  | t :: r =>
      match find (fun p => timestamp_eqb (fst p) t) s with
      | Some p => rest <- getitem_labels s r ;; Ok (p :: rest)
      | None => Raise (KeyError "not in index")
      end
  end.

(** Number of rows of [parameters[parameters.vary == True]]. *)
Definition free_count (ps : list Param) : Z :=
  Z.of_nat (length (filter p_vary ps)).

Definition QZ (z : Z) : Q := inject_Z z.

(** ** The class [Statistics] *)

Section Statistics.

Context {P : Primitives}.

(** [self.ml] *)
Variable ml : Model.

Definition bykey (key : string) (tmin tmax : option Timestamp) : Result Series :=
  if key =? "observations" then observations ml tmin tmax
  else if key =? "simulated" then simulate ml tmin tmax
  else if key =? "residuals" then residuals ml tmin tmax
  else if key =? "innovations" then innovations ml tmin tmax
  else Raise (ValueError ("no timeseries with key " ++ key)).

(** [sum(res ** 2) / N]: on an empty series both operands are Python
    integers and the division raises. *)
Definition rmse (tmin tmax : option Timestamp) : Result Float :=
  res <- residuals ml tmin tmax ;;
  let N := size res in
  if (N =? 0)%Z then Raise ZeroDivisionError
  else Ok (np_sqrt (fdiv (py_sum (series_sq res)) (Fin (QZ N)))).

Definition rmsi (tmin tmax : option Timestamp) : Result Float :=
  res <- innovations ml tmin tmax ;;
  let N := size res in
  if (N =? 0)%Z then Raise ZeroDivisionError
  else Ok (np_sqrt (fdiv (py_sum (series_sq res)) (Fin (QZ N)))).

Definition sse (tmin tmax : option Timestamp) : Result Float :=
  res <- residuals ml tmin tmax ;;
  Ok (py_sum (series_sq res)).

Definition avg_dev (tmin tmax : option Timestamp) : Result Float :=
  res <- residuals ml tmin tmax ;;
  Ok (of_cell (series_mean res)).

Definition evp (tmin tmax : option Timestamp) : Result Float :=
  res <- residuals ml tmin tmax ;;
  obs <- observations ml tmin tmax ;;
  let evp :=
    py_max (Fin 0)
      (fmul (fdiv (fsub (np_var obs) (np_var res)) (np_var obs)) (Fin 100)) in
  Ok evp.

Definition rsq (tmin tmax : option Timestamp) : Result Float :=
  sim <- simulate ml tmin tmax ;;
  obs <- observations ml tmin tmax ;;
  sim <- getitem_labels sim (index obs) ;;
  Ok (np_corrcoef sim obs).

(** [(N - 1.0) / (N - self.ml.nparam)] divides a Python float by a Python
    integer and raises on zero.  The builtin [sum] returns Python numbers, so
    the last division raises on [TSS = 0] as well. *)
Definition rsq_adj (tmin tmax : option Timestamp) : Result Float :=
  obs <- observations ml tmin tmax ;;
  res <- residuals ml tmin tmax ;;
  let N := size obs in
  let RSS := py_sum (series_sq res) in
  let TSS := py_sum (series_sq (series_sub_scalar obs (series_mean obs))) in
  if (N - nparam ml =? 0)%Z then Raise ZeroDivisionError
  else
    let c := Fin ((QZ N - 1) / QZ (N - nparam ml))%Q in
    match TSS with
    | Fin t =>
        if Qeq_bool t 0 then Raise ZeroDivisionError
        else Ok (fsub (Fin 1) (fdiv (fmul c RSS) TSS))
    | _ => Ok (fsub (Fin 1) (fdiv (fmul c RSS) TSS))
    end.

Definition bic (tmin tmax : option Timestamp) : Result Float :=
  innovations <- innovations ml tmin tmax ;;
  let n := size innovations in
  let nparam := free_count (parameters ml) in
  let bic :=
    fadd (fmul (Fin (-2 # 1)) (np_log (py_sum (series_sq innovations))))
         (fmul (Fin (QZ nparam)) (np_log (Fin (QZ n)))) in
  Ok bic.

Definition aic (tmin tmax : option Timestamp) : Result Float :=
  innovations <- innovations ml tmin tmax ;;
  let nparam := free_count (parameters ml) in
  let aic :=
    fadd (fmul (Fin (-2 # 1)) (np_log (py_sum (series_sq innovations))))
         (fmul (Fin 2) (Fin (QZ nparam))) in
  Ok aic.

Definition durbin_watson (tmin tmax : option Timestamp) (series : string)
  : Result Float :=
  series <- bykey series tmin tmax ;;
  Ok (sm_durbin_watson series).

(** *** Dutch statistics *)

Definition q_ghg (tmin tmax : option Timestamp) (key : string) (q : Q)
  : Result Float :=
  series <- bykey key tmin tmax ;;
  let series := resample_d median_valid series in
  c <- series_quantile q series ;;
  Ok (of_cell c).

Definition q_glg (tmin tmax : option Timestamp) (key : string) (q : Q)
  : Result Float :=
  series <- bykey key tmin tmax ;;
  let series := resample_d median_valid series in
  c <- series_quantile q series ;;
  Ok (of_cell c).

Definition isinspring (x : Timestamp) : bool :=
  ((month x =? 3)%Z && (day x >=? 14)%Z) || ((month x =? 4)%Z && (day x <? 15)%Z).

(** [__inspring__(series)] is the mask [isinspring] over the index. *)
Definition __inspring__ (series : Series) : Timestamp -> bool := isinspring.

Definition q_gvg (tmin tmax : option Timestamp) (key : string) : Result Float :=
  series <- bykey key tmin tmax ;;
  let series := resample_d median_valid series in
  let inspring := __inspring__ series in
  if np_any inspring series then Ok (of_cell (series_median (loc_mask inspring series)))
  else Ok NaN.

Definition d_ghg (tmin tmax : option Timestamp) : Result Float :=
  a <- q_ghg tmin tmax "simulated" (94 # 100) ;;
  b <- q_ghg tmin tmax "observations" (94 # 100) ;;
  Ok (fsub a b).

Definition d_glg (tmin tmax : option Timestamp) : Result Float :=
  a <- q_glg tmin tmax "simulated" (6 # 100) ;;
  b <- q_glg tmin tmax "observations" (6 # 100) ;;
  Ok (fsub a b).

Definition d_gvg (tmin tmax : option Timestamp) : Result Float :=
  a <- q_gvg tmin tmax "simulated" ;;
  b <- q_gvg tmin tmax "observations" ;;
  Ok (fsub a b).

Definition the14or28 (x : Timestamp) : bool := (day x =? 14)%Z || (day x =? 28)%Z.

(** [series.ffill(limit=limit)] and [series.bfill(limit=limit)]: an empty
    series is returned before [limit] is looked at. *)
Definition pd_ffill (limit : option Z) (s : Series) : Result Series :=
  match s with
  | [] => Ok []
  | _ => l <- check_limit limit ;; Ok (ffill l s)
  end.

Definition pd_bfill (limit : option Z) (s : Series) : Result Series :=
  match s with
  | [] => Ok []
  | _ => l <- check_limit limit ;; Ok (bfill l s)
  end.

(** [series.interpolate(method, limit)]: an empty series is returned before
    the arguments are looked at. *)
Definition interpolate (method : string) (limit : option Z) (s : Series)
  : Result Series :=
  match s with
  | [] => Ok []
  | _ =>
      if method =? "linear" then
        l <- check_limit limit ;; Ok (interpolate_linear l s)
      else interpolate_other method limit s
  end.

Definition gxg (year_agg : Series -> Cell) (tmin tmax : option Timestamp)
  (key : string) (fill_method : option string) (limit : option Z)
  (output : string) : Result GxgOut :=
  series <- bykey key tmin tmax ;;
  let series := resample_d mean_valid series in
  series <-
    match fill_method with
    | None => Ok (dropna series)
    | Some m =>
        if m =? "ffill" then pd_ffill limit series
        else if m =? "bfill" then pd_bfill limit series
        else interpolate m limit series
    end ;;
  let is14or28 := the14or28 in
  if negb (np_any is14or28 series) then Ok (Scalar None)
  else
    let series := loc_mask is14or28 series in
    let yearly := resample_a year_agg series in
    if output =? "yearly" then Ok (Yearly yearly)
    else if output =? "mean" then Ok (Scalar (series_mean yearly))
    else Raise (ValueError (output ++ " is not a valid output option")).

Definition mean_high (s : Series) : Cell := mean_valid (nlargest 3 s).
Definition mean_low (s : Series) : Cell := mean_valid (nsmallest 3 s).

Definition __mean_spring__ (series : Series) : Cell :=
  let inspring := __inspring__ series in
  if np_any inspring series then series_mean (loc_mask inspring series)
  else None.

Definition ghg (tmin tmax : option Timestamp) (key : string)
  (fill_method : option string) (limit : option Z) (output : string)
  : Result GxgOut :=
  gxg mean_high tmin tmax key fill_method limit output.

Definition glg (tmin tmax : option Timestamp) (key : string)
  (fill_method : option string) (limit : option Z) (output : string)
  : Result GxgOut :=
  gxg mean_low tmin tmax key fill_method limit output.

Definition gvg (tmin tmax : option Timestamp) (key : string)
  (fill_method : option string) (limit : option Z) (output : string)
  : Result GxgOut :=
  gxg __mean_spring__ tmin tmax key fill_method limit output.

(** *** Summary methods *)

(** Members of [Statistics] that take [(tmin, tmax)] but do not return a
    scalar, or that are not statistics at all.  What calling them gives (an
    array, a table, [None], a [TypeError]) is outside this model: the lookup
    answers [Unsupported] for them. *)
Definition other_members : list string :=
  ["acf"; "pacf"; "gxg"; "bykey"; "descriptive"; "summary"; "many"; "all";
   "ml"; "ops"; "__mean_spring__"; "__inspring__"; "__init__"; "__repr__"].

Definition scalar_of (r : Result GxgOut) : Result Float :=
  o <- r ;;
  match o with
  | Scalar c => Ok (of_cell c)
  | Yearly _ => Raise (Unsupported "yearly")
  end.

(** [getattr(self, f)(tmin=tmin, tmax=tmax)]: the method named [f] called
    with its default arguments. *)
Definition getattr (f : string) (tmin tmax : option Timestamp) : Result Float :=
  if f =? "rmse" then rmse tmin tmax
  else if f =? "rmsi" then rmsi tmin tmax
  else if f =? "sse" then sse tmin tmax
  else if f =? "avg_dev" then avg_dev tmin tmax
  else if f =? "evp" then evp tmin tmax
  else if f =? "rsq" then rsq tmin tmax
  else if f =? "rsq_adj" then rsq_adj tmin tmax
  else if f =? "bic" then bic tmin tmax
  else if f =? "aic" then aic tmin tmax
  else if f =? "durbin_watson" then durbin_watson tmin tmax "innovations"
  else if f =? "q_ghg" then q_ghg tmin tmax "simulated" (94 # 100)
  else if f =? "q_glg" then q_glg tmin tmax "simulated" (6 # 100)
  else if f =? "q_gvg" then q_gvg tmin tmax "simulated"
  else if f =? "d_ghg" then d_ghg tmin tmax
  else if f =? "d_glg" then d_glg tmin tmax
  else if f =? "d_gvg" then d_gvg tmin tmax
  else if f =? "ghg" then
    scalar_of (ghg tmin tmax "simulated" (Some "linear") (Some 15%Z) "mean")
  else if f =? "glg" then
    scalar_of (glg tmin tmax "simulated" (Some "linear") (Some 15%Z) "mean")
  else if f =? "gvg" then
    scalar_of (gvg tmin tmax "simulated" (Some "linear") (Some 15%Z) "mean")
  else if existsb (String.eqb f) other_members then Raise (Unsupported f)
  else Raise (AttributeError f).

(** The dictionary [output] of [summary]: preset, then method name and label. *)
Definition output : list (string * list (string * string)) :=
  [("basic",
    [("evp", "Explained variance percentage");
     ("rmse", "Root mean squared error");
     ("avg_dev", "Average Deviation");
     ("rsq", "Pearson R^2");
     ("bic", "Bayesian Information Criterion");
     ("aic", "Akaike Information Criterion")]);
   ("dutch",
    [("q_ghg", "Gemiddeld Hoge Grondwaterstand");
     ("q_glg", "Gemiddeld Lage Grondwaterstand");
     ("q_gvg", "Gemiddelde Voorjaarsgrondwaterstand");
     ("d_ghg", "Verschil Gemiddeld Hoge Grondwaterstand");
     ("d_glg", "Verschil Gemiddeld Lage Grondwaterstand");
     ("d_gvg", "Verschil Gemiddelde Voorjaarsgrondwaterstand")])].

(** [d[key]] on a dictionary written as an association list. *)
Fixpoint dict_get {A : Type} (d : list (string * A)) (key : string) : Result A :=
  match d with
  | [] => Raise (KeyError key)
  | (k, v) :: r => if k =? key then Ok v else dict_get r key
  end.

(** The frame returned by [summary]: index (the labels) and column 'Value'.
    The constant first component [0] of the tuples of a preset is written as
    the empty string. *)
Definition summary (selected : string) (tmin tmax : option Timestamp)
  : Result (list (string * Float)) :=
  selected_output <-
    (if selected =? "all" then
       Ok (sorted (flat_map (fun kd => map (fun fl => (fst kd, snd fl, fst fl))
                                          (snd kd)) output))
     else
       d <- dict_get output selected ;;
       Ok (sorted (map (fun fl => ("", snd fl, fst fl)) d))) ;;
  mapM (fun klf => v <- getattr (snd klf) tmin tmax ;; Ok (snd (fst klf), v))
       selected_output.

Definition default_stats : list string := ["evp"; "rmse"; "rmsi"; "durbin_watson"].

(** The loop of [many]: [data.iloc[0][k] = getattr(self, k)(...)] for each [k].
    The row [data.iloc[0]] of the frame of dtype object is a view, so the
    assignment reaches the frame. *)
Fixpoint many_loop (cols : list string) (tmin tmax : option Timestamp)
  (ks : list string) (row : list Float) : Result (list Float) :=
  match ks with
  | [] => Ok row
  | k :: r =>
      v <- getattr k tmin tmax ;;
      many_loop cols tmin tmax r (setitem k v cols row)
  end.

Definition many (tmin tmax : option Timestamp) (stats : option (list string))
  : Result Row :=
  let stats :=
    match stats with
    | None | Some [] => default_stats
    | Some l => l
    end in
  let data := repeat NaN (length stats) in
  row <- many_loop stats tmin tmax stats data ;;
  Ok (mkRow stats row).

End Statistics.

(** ** Concrete runs *)

(** An environment for concrete runs.  It has no scipy; its square root is
    rounded down to nine decimals; its logarithm knows the points where the
    result is rational or infinite.  The correlation and Durbin-Watson
    statistics are not available in it (NaN). *)
Definition sqrt_down (q : Q) : Q :=
  (Z.sqrt (Qnum q * 10 ^ 18 / Z.pos (Qden q)) # 1000000000).

Definition rational_only : Primitives := {|
  np_sqrt := fun x =>
    match x with
    | Fin q => if Qle_bool 0 q then Fin (sqrt_down q) else NaN
    | PInf => PInf
    | _ => NaN
    end;
  np_log := fun x =>
    match x with
    | Fin q =>
        if Qeq_bool q 0 then NInf else if Qeq_bool q 1 then Fin 0 else NaN
    | PInf => PInf
    | _ => NaN
    end;
  np_corrcoef := fun _ _ => NaN;
  sm_durbin_watson := fun _ => NaN;
  interpolate_other := fun m _ _ =>
    Raise (ValueError ("interpolation method " ++ m ++ " is not available"))
|}.

Definition constant_model (obs sim res inn : Series) (ps : list Param) (n : Z)
  : Model :=
  mkModel (fun _ _ => Ok obs) (fun _ _ => Ok sim) (fun _ _ => Ok res)
          (fun _ _ => Ok inn) ps n.

(** ** Definitions in the words of the specification *)

Definition series_keys : list string :=
  ["observations"; "simulated"; "residuals"; "innovations"].

Definition presets : list string := ["all"; "basic"; "dutch"].

(** The percentage before clipping, for finite variances. *)
Definition explained (vo vr : Q) : Q := ((vo + - vr) / vo * 100)%Q.

(** The spring window in the words of the specification: 14 March through
    14 April, both included. *)
Definition in_spring (t : Timestamp) : bool :=
  ((month t =? 3)%Z && (14 <=? day t)%Z) || ((month t =? 4)%Z && (day t <=? 14)%Z).

(** The non-missing daily medians of a series that fall in the spring window. *)
Definition spring_values (s : Series) : list Q :=
  valid (values (loc_mask in_spring (resample_d median_valid s))).

(** The first two steps of [gxg] as the specification names them
    (ResampleFill): daily means, then the fill policy. *)
Definition resample_fill {P : Primitives} (fill_method : option string)
  (limit : option Z) (s : Series) : Result Series :=
  let daily := resample_d mean_valid s in
  match fill_method with
  | None => Ok (dropna daily)
  | Some m =>
      if m =? "ffill" then pd_ffill limit daily
      else if m =? "bfill" then pd_bfill limit daily
      else interpolate m limit daily
  end.

(** The samples [gxg] keeps: those dated the 14th or the 28th. *)
Definition retained (filled : Series) : Series := loc_mask the14or28 filled.

Definition output_modes : list string := ["yearly"; "mean"].

(** The formula of the specification for a parameter count [k]. *)
Definition adjusted (N k : Z) (RSS TSS : Q) : Q :=
  (1 - (QZ N - 1) / QZ (N - k) * RSS / TSS)%Q.

(** The presets [ghg], [glg], [gvg] as the summary methods call them, on the
    series of a key. *)
Definition preset_ghg {P : Primitives} (ml : Model) (tmin tmax : option Timestamp)
  (key : string) : Result Float :=
  scalar_of (ghg ml tmin tmax key (Some "linear") (Some 15%Z) "mean").

Definition preset_glg {P : Primitives} (ml : Model) (tmin tmax : option Timestamp)
  (key : string) : Result Float :=
  scalar_of (glg ml tmin tmax key (Some "linear") (Some 15%Z) "mean").

Definition preset_gvg {P : Primitives} (ml : Model) (tmin tmax : option Timestamp)
  (key : string) : Result Float :=
  scalar_of (gvg ml tmin tmax key (Some "linear") (Some 15%Z) "mean").

(** The list of names [many] works with. *)
Definition many_names (stats : option (list string)) : list string :=
  match stats with
  | None | Some [] => default_stats
  | Some l => l
  end.

(** Order on cells that relates a missing value to a missing value only. *)
Definition cell_le (a b : Cell) : Prop :=
  match a, b with
  | Some x, Some y => (x <= y)%Q
  | None, None => True
  | _, _ => False
  end.

(** ** Inputs of the concrete runs *)

Definition one_point : Series := [(on 2020 1 15, Some (3 # 2))].

Definition tiny_model : Model :=
  constant_model one_point one_point one_point one_point [] 0.

(** A model all of whose methods raise. *)
Definition broken_model : Model :=
  mkModel (fun _ _ => Raise (ProviderError "observations"))
          (fun _ _ => Raise (ProviderError "simulate"))
          (fun _ _ => Raise (ProviderError "residuals"))
          (fun _ _ => Raise (ProviderError "innovations")) [] 0.

Definition evp_obs : Series :=
  [(on 2020 1 1, Some 1%Q); (on 2020 1 2, Some 3%Q)].

Definition evp_res : Series :=
  [(on 2020 1 1, Some (1 # 2)); (on 2020 1 2, Some (- (1 # 2)))%Q].

Definition evp_model : Model :=
  constant_model evp_obs evp_obs evp_res evp_res [] 0.

(** Observations with one point in the spring window and others around it. *)
Definition spring_obs : Series :=
  [(on 2019 3 12, Some 8%Q);
   (mkTimestamp (days_from_civil 2019 3 13) 43200, Some 9%Q);
   (on 2019 4 14, Some (7 # 4));
   (on 2019 4 15, Some 2%Q)].

Definition spring_model : Model :=
  constant_model spring_obs [] [] [] [] 0.

Definition two_samples : Series :=
  [(on 2020 1 14, Some 1%Q); (on 2020 1 28, Some 2%Q)].

Definition sampled_model : Model :=
  constant_model two_samples two_samples [] [] [] 0.

Definition fit_obs : Series :=
  [(on 2020 1 1, Some 1%Q); (on 2020 1 2, Some 2%Q);
   (on 2020 1 3, Some 4%Q); (on 2020 1 4, Some 5%Q)].

Definition fit_res : Series :=
  [(on 2020 1 1, Some (1 # 2)); (on 2020 1 2, Some (- (1 # 2))%Q);
   (on 2020 1 3, Some (1 # 2)); (on 2020 1 4, Some (- (1 # 2))%Q)].

(** A model with two parameters, one of them fixed. *)
Definition fit_table : list Param :=
  [mkParam "recharge_A" 1 true; mkParam "constant_d" 10 false].

Definition fit_model : Model :=
  constant_model fit_obs fit_obs fit_res fit_res fit_table 2.

(** Simulated and observed levels in the middle of March. *)
Definition march_sim : Series :=
  [(on 2020 3 14, Some 1%Q); (on 2020 3 15, Some 5%Q)].

Definition march_obs : Series := [(on 2020 3 14, Some 0%Q)].

Definition march_model : Model :=
  constant_model march_obs march_sim [] [] [] 0.

Definition two_years : Series :=
  [(on 2019 6 14, Some 4%Q); (on 2019 6 20, Some 9%Q); (on 2019 6 28, Some 6%Q);
   (on 2019 7 14, Some 1%Q); (on 2019 7 28, Some 3%Q); (on 2020 1 14, Some 2%Q)].

Definition two_years_model : Model := constant_model two_years [] [] [] [] 0.


(** ** The registry [ops] and the method [all] *)

(** [self.ops], set in [__init__]: statistic name and label, in the order in
    which the dictionary is written (its iteration order). *)
Definition ops : list (string * string) :=
  [("evp", "Explained variance percentage");
   ("rmse", "Root mean squared error");
   ("rmsi", "Root mean squared innovation");
   ("sse", "Sum of squares of the error");
   ("avg_dev", "Average Deviation");
   ("rsq", "Pearson R^2");
   ("rsq_adj", "Adjusted Pearson R^2");
   ("bic", "Bayesian Information Criterion");
   ("aic", "Akaike Information Criterion")].

(** [stats.loc[k] = v] on a frame with the single column 'Value': the rows
    labelled [k] take the value, and a row is appended when there is none. *)
Definition loc_setitem (k : string) (v : Float) (stats : list (string * Float))
  : list (string * Float) :=
  if existsb (fun r => fst r =? k) stats
  then map (fun r => if fst r =? k then (fst r, v) else r) stats
  else (stats ++ [(k, v)])%list.

Section Registry.

Context {P : Primitives}.
Variable ml : Model.

(** The loop of [all]: [stats.loc[k] = getattr(self, k)(...)] for each key. *)
Fixpoint all_loop (tmin tmax : option Timestamp) (ks : list string)
  (stats : list (string * Float)) : Result (list (string * Float)) :=
  match ks with
  | [] => Ok stats
  | k :: r =>
      v <- getattr ml k tmin tmax ;;
      all_loop tmin tmax r (loc_setitem k v stats)
  end.

Definition all (tmin tmax : option Timestamp) : Result (list (string * Float)) :=
  let stats := [] in
  all_loop tmin tmax (map fst ops) stats.

End Registry.

(** The model with another parameter table. *)
Definition with_parameters (ml : Model) (ps : list Param) : Model :=
  mkModel (observations ml) (simulate ml) (residuals ml) (innovations ml)
          ps (nparam ml).

(** Observations without variance. *)
Definition flat_obs : Series :=
  [(on 2020 1 1, Some 2%Q); (on 2020 1 2, Some 2%Q)].

(** Equality of cells up to the representation of rationals. *)
Definition cell_eq (a b : Cell) : Prop :=
  match a, b with
  | Some x, Some y => (x == y)%Q
  | None, None => True
  | _, _ => False
  end.

(** The retained samples of one calendar year. *)
Definition year_group (y : Z) (filled : Series) : Series :=
  filter (fun p => (year (fst p) =? y)%Z) (retained filled).

(** The value [Series.quantile(q)] interpolates from the sorted values [v]. *)
Definition quantile_value (q : Q) (v : list Q) : Q :=
  let pos := (q * (Qlen v - 1))%Q in
  let i := Z.to_nat (Qfloor pos) in
  let frac := (pos - inject_Z (Qfloor pos))%Q in
  let lo := nth i v 0%Q in
  let hi := nth (S i) v lo in
  (lo + (hi - lo) * frac)%Q.




(** The statistics that return a scalar, by identifier: the method itself,
    with the arguments other than the window at their defaults. *)
Definition registry {P : Primitives} (ml : Model)
  : list (string * (option Timestamp -> option Timestamp -> Result Float)) :=
  [("evp", evp ml); ("rmse", rmse ml); ("rmsi", rmsi ml); ("sse", sse ml);
   ("avg_dev", avg_dev ml); ("rsq", rsq ml); ("rsq_adj", rsq_adj ml);
   ("bic", bic ml); ("aic", aic ml);
   ("durbin_watson", fun tmin tmax => durbin_watson ml tmin tmax "innovations");
   ("q_ghg", fun tmin tmax => q_ghg ml tmin tmax "simulated" (94 # 100));
   ("q_glg", fun tmin tmax => q_glg ml tmin tmax "simulated" (6 # 100));
   ("q_gvg", fun tmin tmax => q_gvg ml tmin tmax "simulated");
   ("d_ghg", d_ghg ml); ("d_glg", d_glg ml); ("d_gvg", d_gvg ml);
   ("ghg", fun tmin tmax => preset_ghg ml tmin tmax "simulated");
   ("glg", fun tmin tmax => preset_glg ml tmin tmax "simulated");
   ("gvg", fun tmin tmax => preset_gvg ml tmin tmax "simulated")].

Definition registered {P : Primitives} (ml : Model) (k : string) : Prop :=
  In k (map fst (registry ml)).

(** The registered statistic named [k], called on its own. *)
Definition statistic {P : Primitives} (ml : Model) (k : string)
  (tmin tmax : option Timestamp) : Result Float :=
  match find (fun e => fst e =? k) (registry ml) with
  | Some e => snd e tmin tmax
  | None => Raise (AttributeError k)
  end.



(** The difference of an estimate with itself: 0 for a number, NaN for NaN. *)
Definition self_difference (x z : Float) : Prop :=
  match x with
  | Fin _ => exists q, z = Fin q /\ (q == 0)%Q
  | _ => z = NaN
  end.

(** Both cells missing, or both with a value. *)
Definition cell_same (a b : Cell) : Prop :=
  match a, b with
  | Some _, Some _ => True
  | None, None => True
  | _, _ => False
  end.

(** One innovation of size 1: the sum of squares is 1 and the size is 1. *)
Definition unit_innovation : Series := [(on 2020 1 1, Some 1%Q)].

Definition log_model : Model :=
  constant_model fit_obs fit_obs fit_res unit_innovation fit_table 2.

(** Another table with one varied row: other names and values, and the
    fixed rows in other places. *)
Definition other_table : list Param :=
  [mkParam "noise_alpha" 3 false; mkParam "gamma_n" (5 # 2) true;
   mkParam "gamma_a" 100 false].

(** Residuals that are all zero. *)
Definition zero_res : Series :=
  [(on 2020 1 1, Some 0%Q); (on 2020 1 2, Some 0%Q)].

(** The three sampling dates of the spring level: 14 March, 28 March and
    14 April. *)
Definition spring_sample (t : Timestamp) : bool :=
  ((month t =? 3)%Z && ((day t =? 14)%Z || (day t =? 28)%Z))
  || ((month t =? 4)%Z && (day t =? 14)%Z).

(** A series without missing values. *)
Definition complete (s : Series) : Prop := ~ In None (values s).

(** Residuals with a perfect square for mean square. *)
Definition unit_res : Series :=
  [(on 2020 1 1, Some 1%Q); (on 2020 1 2, Some (- (1))%Q);
   (on 2020 1 3, Some 1%Q); (on 2020 1 4, Some (- (1))%Q)].

Definition unit_model : Model :=
  constant_model fit_obs fit_obs unit_res unit_res fit_table 2.

(** * Properties *)

(** ** Checks of the library model *)

Example civil_epoch : civil_from_days 0 = mkCivil 1970 1 1.
Proof. reflexivity. Qed.

Example civil_leap_day : civil_from_days (days_from_civil 2016 2 29) = mkCivil 2016 2 29.
Proof. reflexivity. Qed.

Example civil_year_end : civil_from_days (days_from_civil 1999 12 31 + 1) = mkCivil 2000 1 1.
Proof. reflexivity. Qed.

(** Day by day over 2016..2020, and over the century years 1900, 2000 and
    2100, the conversion is inverted by [days_from_civil] and yields months
    1..12 and days 1..31. *)
Example civil_round_trip :
  forallb (fun d =>
             let c := civil_from_days d in
             (days_from_civil (c_year c) (c_month c) (c_day c) =? d)%Z
             && (1 <=? c_month c)%Z && (c_month c <=? 12)%Z
             && (1 <=? c_day c)%Z && (c_day c <=? 31)%Z)
          (zrange (days_from_civil 2016 1 1) 1827
           ++ zrange (days_from_civil 1900 1 1) 365
           ++ zrange (days_from_civil 2000 1 1) 366
           ++ zrange (days_from_civil 2100 1 1) 365)%list
  = true.
Proof. vm_compute. reflexivity. Qed.

Example civil_range_end :
  civil_from_days (days_from_civil 2016 1 1 + 1826) = mkCivil 2020 12 31
  /\ civil_from_days (days_from_civil 1900 1 1 + 364) = mkCivil 1900 12 31
  /\ civil_from_days (days_from_civil 2000 1 1 + 365) = mkCivil 2000 12 31.
Proof. repeat split. Qed.

Example sort_values_ex : sort_values [3; 1; 2]%Q = [1; 2; 3]%Q.
Proof. reflexivity. Qed.

Example median_even_ex : median_valid [4; 1; 3; 2]%Q = Some ((2 + 3) / 2)%Q.
Proof. reflexivity. Qed.

Example ffill_limit_ex :
  values (ffill (Some 1%nat)
            [(on 2020 1 1, Some 1%Q); (on 2020 1 2, None); (on 2020 1 3, None)])
  = [Some 1%Q; Some 1%Q; None].
Proof. reflexivity. Qed.

Example interpolate_ex :
  map (option_map Qred)
    (values (interpolate_linear None
               [(on 2020 1 1, Some 1%Q); (on 2020 1 2, None);
                (on 2020 1 3, None); (on 2020 1 4, Some 4%Q)]))
  = [Some 1%Q; Some 2%Q; Some 3%Q; Some 4%Q].
Proof. reflexivity. Qed.

Example resample_d_ex :
  values (resample_d mean_valid
            [(mkTimestamp 10 5, Some 1%Q); (mkTimestamp 10 9, Some 3%Q);
             (mkTimestamp 12 0, Some 7%Q)])
  = [Some (4 / 2)%Q; None; Some (7 / 1)%Q].
Proof. reflexivity. Qed.

Example sqrt_down_ex : sqrt_down 2 = (1414213562 # 1000000000).
Proof. reflexivity. Qed.

(** ** [bykey] *)

(** C2.  [bykey] raises [ValueError] with a message ending in the key for
    every string outside the four series names, and for each of the four
    names returns what the model's method of that series returns, as it is
    (same timestamps, same values). *)
Theorem bykey_dispatch (ml : Model) (tmin tmax : option Timestamp) :
  (forall key, ~ In key series_keys ->
     bykey ml key tmin tmax = Raise (ValueError ("no timeseries with key " ++ key)))
  /\ bykey ml "observations" tmin tmax = observations ml tmin tmax
  /\ bykey ml "simulated" tmin tmax = simulate ml tmin tmax
  /\ bykey ml "residuals" tmin tmax = residuals ml tmin tmax
  /\ bykey ml "innovations" tmin tmax = innovations ml tmin tmax.
Proof.
  split; [| repeat split; reflexivity].
  intros key Hkey. unfold bykey.
  destruct (String.eqb_spec key "observations") as [->|_];
    [exfalso; apply Hkey; simpl; tauto |].
  destruct (String.eqb_spec key "simulated") as [->|_];
    [exfalso; apply Hkey; simpl; tauto |].
  destruct (String.eqb_spec key "residuals") as [->|_];
    [exfalso; apply Hkey; simpl; tauto |].
  destruct (String.eqb_spec key "innovations") as [->|_];
    [exfalso; apply Hkey; simpl; tauto |].
  reflexivity.
Qed.

Lemma bykey_dispatch_witness :
  ~ In "bogus" series_keys
  /\ bykey tiny_model "bogus" None None
     = Raise (ValueError "no timeseries with key bogus").
Proof.
  assert (H : ~ In "bogus" series_keys).
  { simpl. intros [H|[H|[H|[H|[]]]]]; discriminate H. }
  split; [exact H |].
  exact (proj1 (bykey_dispatch tiny_model None None) "bogus" H).
Defined.

(** ** [summary] *)

(** C10.  For a preset string other than "all", "basic" and "dutch",
    [summary] raises [KeyError] on the preset, whatever the model is: the
    lookup fails before any statistic is asked for, and no default preset
    is used. *)
Theorem summary_unknown_preset {P : Primitives} (ml : Model) (selected : string)
  (tmin tmax : option Timestamp) :
  ~ In selected presets ->
  summary ml selected tmin tmax = Raise (KeyError selected).
Proof.
  intros H. unfold summary.
  destruct (String.eqb_spec selected "all") as [->|_];
    [exfalso; apply H; simpl; tauto |].
  unfold output, dict_get.
  destruct (String.eqb_spec "basic" selected) as [<-|_];
    [exfalso; apply H; simpl; tauto |].
  destruct (String.eqb_spec "dutch" selected) as [<-|_];
    [exfalso; apply H; simpl; tauto |].
  reflexivity.
Qed.

Lemma summary_unknown_preset_witness :
  ~ In "extended" presets
  /\ summary (P := rational_only) broken_model "extended" None None
     = Raise (KeyError "extended").
Proof.
  assert (H : ~ In "extended" presets).
  { simpl. intros [H|[H|[H|[]]]]; discriminate H. }
  split; [exact H |].
  exact (summary_unknown_preset (P := rational_only) broken_model "extended" None None H).
Defined.

(** With a known preset the same model makes [summary] fail in the first
    statistic, so the [KeyError] above does come first. *)
Example summary_basic_broken :
  summary (P := rational_only) broken_model "basic" None None
  = Raise (ProviderError "innovations").
Proof. reflexivity. Qed.

(** ** [evp] *)

Lemma Qsum_nonneg (l : list Q) :
  Forall (fun x => 0 <= x)%Q l -> (0 <= Qsum l)%Q.
Proof.
  induction 1 as [|x l Hx _ IH]; simpl.
  - apply Qle_refl.
  - replace 0%Q with (0 + 0)%Q by reflexivity. now apply Qplus_le_compat.
Qed.

Lemma Qlen_pos (l : list Q) : l <> [] -> (0 < Qlen l)%Q.
Proof.
  destruct l as [|x l]; [congruence |]. intros _.
  unfold Qlen, Qlt. simpl. lia.
Qed.

Lemma mean_valid_nonneg (l : list Q) (m : Q) :
  Forall (fun x => 0 <= x)%Q l -> mean_valid l = Some m -> (0 <= m)%Q.
Proof.
  intros Hl Hm. destruct l as [|x l]; [discriminate |].
  injection Hm as <-.
  apply Qle_shift_div_l.
  - apply Qlen_pos. discriminate.
  - rewrite Qmult_0_l. exact (Qsum_nonneg (x :: l) Hl).
Qed.

(** The variance is NaN or a non-negative number. *)
Lemma np_var_cases (s : Series) :
  np_var s = NaN \/ exists v, np_var s = Fin v /\ (0 <= v)%Q.
Proof.
  unfold np_var. destruct (mean_valid (valid (values s))) as [m|]; [| now left].
  destruct (mean_valid (map _ _)) as [v|] eqn:E; [| now left].
  right. exists v. split; [reflexivity |].
  apply (mean_valid_nonneg (map (fun x => (x - m) * (x - m))%Q (valid (values s)))); [| exact E].
  apply Forall_forall. intros y Hy. apply in_map_iff in Hy as [x [<- _]].
  generalize (x - m)%Q. intros d.
  destruct (Qlt_le_dec d 0) as [Hd|Hd].
  - setoid_replace (d * d)%Q with ((- d) * (- d))%Q by ring.
    apply Qmult_le_0_compat; apply (Qopp_le_compat d 0); now apply Qlt_le_weak.
  - now apply Qmult_le_0_compat.
Qed.

Lemma explained_le_100 (vo vr : Q) :
  (0 < vo)%Q -> (0 <= vr)%Q -> (explained vo vr <= 100)%Q.
Proof.
  intros Hvo Hvr. unfold explained.
  setoid_replace 100%Q with (1 * 100)%Q at 2 by reflexivity.
  apply Qmult_le_compat_r; [| discriminate].
  apply Qle_shift_div_r; [exact Hvo |].
  rewrite Qmult_1_l.
  setoid_replace vo with (vo + - 0)%Q at 2 by ring.
  apply Qplus_le_compat; [apply Qle_refl |].
  now apply Qopp_le_compat.
Qed.

Lemma explained_nonpos (vo vr : Q) :
  (0 < vo)%Q -> (vo <= vr)%Q -> (explained vo vr <= 0)%Q.
Proof.
  intros Hvo Hle. unfold explained.
  setoid_replace 0%Q with (0 * 100)%Q by reflexivity.
  apply Qmult_le_compat_r; [| discriminate].
  apply Qle_shift_div_r; [exact Hvo |].
  rewrite Qmult_0_l.
  setoid_replace 0%Q with (vr + - vr)%Q by ring.
  apply Qplus_le_compat; [exact Hle | apply Qle_refl].
Qed.

Lemma explained_pos (vo vr : Q) :
  (0 < vo)%Q -> (vr < vo)%Q -> (0 < explained vo vr)%Q.
Proof.
  intros Hvo Hlt. unfold explained.
  setoid_replace 0%Q with (0 * 100)%Q by reflexivity.
  apply Qmult_lt_compat_r; [reflexivity |].
  apply Qlt_shift_div_l; [exact Hvo |].
  rewrite Qmult_0_l. lra.
Qed.

(** C7.  On a window whose observations have a finite non-zero variance,
    [evp] returns [max(0, (var(obs) - var(res)) / var(obs) * 100)]: the
    result is a number between 0 and 100; it is 0 when the variance of the
    residuals is at least the variance of the observations (or is NaN), and
    it is [(var(obs) - var(res)) / var(obs) * 100] when the variance of the
    residuals is smaller. *)
Theorem evp_range (ml : Model) (tmin tmax : option Timestamp)
  (obs res : Series) (vo : Q) :
  observations ml tmin tmax = Ok obs ->
  residuals ml tmin tmax = Ok res ->
  np_var obs = Fin vo ->
  ~ (vo == 0)%Q ->
  evp ml tmin tmax
  = Ok (py_max (Fin 0)
          (fmul (fdiv (fsub (np_var obs) (np_var res)) (np_var obs)) (Fin 100)))
  /\ exists e, evp ml tmin tmax = Ok (Fin e)
       /\ (0 <= e)%Q /\ (e <= 100)%Q
       /\ (forall vr, np_var res = Fin vr -> (vo <= vr)%Q -> e = 0%Q)
       /\ (forall vr, np_var res = Fin vr -> (vr < vo)%Q ->
             (e == (vo - vr) / vo * 100)%Q)
       /\ (np_var res = NaN -> e = 0%Q).
Proof.
  intros Hobs Hres Hvo Hnz.
  assert (Hevp : evp ml tmin tmax
                 = Ok (py_max (Fin 0)
                         (fmul (fdiv (fsub (np_var obs) (np_var res)) (np_var obs))
                               (Fin 100)))).
  { unfold evp. rewrite Hres, Hobs. reflexivity. }
  split; [exact Hevp |].
  rewrite Hevp, Hvo.
  assert (Hpos : (0 < vo)%Q).
  { destruct (np_var_cases obs) as [E|[v [E Hv]]]; rewrite Hvo in E;
      [discriminate |].
    injection E as <-.
    apply Qle_lt_or_eq in Hv as [Hv|Hv]; [exact Hv |].
    exfalso. apply Hnz. symmetry. exact Hv. }
  assert (Hz : Qeq_bool vo 0 = false).
  { destruct (Qeq_bool vo 0) eqn:E; [| reflexivity].
    apply Qeq_bool_eq in E. contradiction. }
  destruct (np_var_cases res) as [E|[vr [E Hvr]]]; rewrite E.
  - exists 0%Q. simpl. repeat split; try discriminate.
  - unfold fsub, fneg, fadd, fdiv. rewrite Hz. unfold fmul, py_max, fgtb.
    fold (explained vo vr).
    destruct (Qle_bool (explained vo vr) 0) eqn:Ecmp; simpl.
    + exists 0%Q. repeat split; try discriminate.
      intros vr' Hvr' Hlt. assert (vr = vr') by congruence. subst vr'.
      apply Qle_bool_iff in Ecmp.
      pose proof (explained_pos vo vr Hpos Hlt) as Hp. lra.
    + exists (explained vo vr). split; [reflexivity |].
      assert (Hgt : ~ (explained vo vr <= 0)%Q).
      { intros Hle. apply Qle_bool_iff in Hle. congruence. }
      split; [| split; [| split; [| split]]].
      * apply Qnot_lt_le. intros Hlt. apply Hgt. now apply Qlt_le_weak.
      * now apply explained_le_100.
      * intros vr' Hvr' Hle. assert (vr = vr') by congruence. subst vr'.
        exfalso. apply Hgt. now apply explained_nonpos.
      * intros vr' Hvr' Hlt. assert (vr = vr') by congruence. subst vr'.
        reflexivity.
      * discriminate.
Qed.

Lemma evp_range_witness :
  exists e, evp evp_model None None = Ok (Fin e) /\ (e == 75)%Q.
Proof.
  assert (Hv : np_var evp_obs = Fin (32 # 32)) by reflexivity.
  assert (Hnz : ~ (32 # 32 == 0)%Q) by discriminate.
  destruct (evp_range evp_model None None evp_obs evp_res _ eq_refl eq_refl Hv Hnz)
    as [_ [e [He [_ [_ [_ [Hval _]]]]]]].
  exists e. split; [exact He |].
  rewrite (Hval (32768 # 131072)); [reflexivity | reflexivity | reflexivity].
Defined.

Example evp_value :
  exists e, evp evp_model None None = Ok (Fin e) /\ (e == 75)%Q.
Proof. eexists. split; reflexivity. Qed.

(** ** [q_gvg] *)

Lemma isinspring_in_spring (t : Timestamp) : isinspring t = in_spring t.
Proof.
  unfold isinspring, in_spring. rewrite Z.geb_leb.
  replace (day t <? 15)%Z with (day t <=? 14)%Z; [reflexivity |].
  destruct (Z.leb_spec (day t) 14), (Z.ltb_spec (day t) 15); (reflexivity || lia).
Qed.

Lemma np_any_false_loc_mask (mask : Timestamp -> bool) (s : Series) :
  np_any mask s = false -> loc_mask mask s = [].
Proof.
  unfold np_any, loc_mask, index. induction s as [|[t c] s IH]; simpl; [reflexivity |].
  intros H. apply orb_false_iff in H as [Ht Hs]. rewrite Ht. now apply IH.
Qed.

Lemma loc_mask_ext (f g : Timestamp -> bool) (s : Series) :
  (forall t, f t = g t) -> loc_mask f s = loc_mask g s.
Proof.
  intros H. unfold loc_mask. apply filter_ext. intros p. apply H.
Qed.

(** [q_gvg] is the median of the spring values of the daily medians, also
    when the mask selects nothing. *)
Lemma q_gvg_value (ml : Model) (tmin tmax : option Timestamp) (key : string)
  (s : Series) :
  bykey ml key tmin tmax = Ok s ->
  q_gvg ml tmin tmax key = Ok (of_cell (median_valid (spring_values s))).
Proof.
  intros Hs. unfold q_gvg, spring_values, __inspring__. rewrite Hs. simpl.
  rewrite <- (loc_mask_ext isinspring in_spring _ isinspring_in_spring).
  destruct (np_any isinspring (resample_d median_valid s)) eqn:E.
  - reflexivity.
  - rewrite (np_any_false_loc_mask _ _ E). reflexivity.
Qed.

Example q_gvg_outside_spring :
  q_gvg spring_model None None "simulated" = Ok NaN
  /\ q_gvg (constant_model [(on 2019 5 1, Some 1%Q)] [] [] [] [] 0)
       None None "observations" = Ok NaN.
Proof. split; reflexivity. Qed.

(** ** [gxg] and its presets *)

Section Gxg.

Context {P : Primitives}.
Variable ml : Model.
Variables tmin tmax : option Timestamp.
Variable key : string.
Variable fill_method : option string.
Variable limit : option Z.
Variables s filled : Series.
Hypothesis Hkey : bykey ml key tmin tmax = Ok s.
Hypothesis Hfill : resample_fill fill_method limit s = Ok filled.

(** [gxg] after its first two steps. *)
Lemma gxg_filled (year_agg : Series -> Cell) (output : string) :
  gxg ml year_agg tmin tmax key fill_method limit output
  = if negb (np_any the14or28 filled) then Ok (Scalar None)
    else
      let yearly := resample_a year_agg (retained filled) in
      if output =? "yearly" then Ok (Yearly yearly)
      else if output =? "mean" then Ok (Scalar (series_mean yearly))
      else Raise (ValueError (output ++ " is not a valid output option")).
Proof.
  unfold gxg. rewrite Hkey. unfold bind at 1.
  unfold resample_fill in Hfill. cbv zeta in Hfill. rewrite Hfill. reflexivity.
Qed.

Lemma np_any_false_iff (mask : Timestamp -> bool) (x : Series) :
  np_any mask x = false <-> forall t, In t (index x) -> mask t = false.
Proof.
  unfold np_any. split.
  - intros H t Ht. destruct (mask t) eqn:E; [| reflexivity].
    assert (existsb mask (index x) = true) by (apply existsb_exists; eauto).
    congruence.
  - intros H. destruct (existsb mask (index x)) eqn:E; [| reflexivity].
    apply existsb_exists in E as [t [Ht E]]. rewrite (H t Ht) in E. discriminate.
Qed.

Lemma the14or28_false (t : Timestamp) :
  the14or28 t = false <-> day t <> 14%Z /\ day t <> 28%Z.
Proof.
  unfold the14or28. rewrite orb_false_iff, !Z.eqb_neq. tauto.
Qed.

(** C4.  When no timestamp of the daily, gap-filled series falls on a 14th or
    a 28th, [gxg] returns NaN for every aggregator and every [output], and so
    do [ghg], [glg] and [gvg]; nothing is raised. *)
Theorem gxg_no_sample_nan (output : string) :
  (forall t, In t (index filled) -> day t <> 14%Z /\ day t <> 28%Z) ->
  (forall year_agg,
      gxg ml year_agg tmin tmax key fill_method limit output = Ok (Scalar None))
  /\ ghg ml tmin tmax key fill_method limit output = Ok (Scalar None)
  /\ glg ml tmin tmax key fill_method limit output = Ok (Scalar None)
  /\ gvg ml tmin tmax key fill_method limit output = Ok (Scalar None).
Proof.
  intros Hnone.
  assert (Hany : np_any the14or28 filled = false).
  { apply np_any_false_iff. intros t Ht. apply the14or28_false. now apply Hnone. }
  assert (Hgxg : forall year_agg,
             gxg ml year_agg tmin tmax key fill_method limit output
             = Ok (Scalar None)).
  { intros year_agg. rewrite gxg_filled, Hany. reflexivity. }
  unfold ghg, glg, gvg. repeat split; apply Hgxg.
Qed.

(** C3, amended.  When the key is valid, the fill succeeds and at least one
    sample on a 14th or 28th is kept, [gxg] with an [output] other than
    "yearly" and "mean" raises [ValueError] with a message that starts with
    the value given. *)
Theorem gxg_invalid_output (year_agg : Series -> Cell) (output : string) :
  (exists t, In t (index filled) /\ (day t = 14%Z \/ day t = 28%Z)) ->
  ~ In output output_modes ->
  gxg ml year_agg tmin tmax key fill_method limit output
  = Raise (ValueError (output ++ " is not a valid output option")).
Proof.
  intros [t [Ht Hday]] Hout.
  assert (Hany : np_any the14or28 filled = true).
  { destruct (np_any the14or28 filled) eqn:E; [reflexivity |].
    rewrite np_any_false_iff in E. specialize (E t Ht).
    apply the14or28_false in E. lia. }
  rewrite gxg_filled, Hany. simpl.
  destruct (String.eqb_spec output "yearly") as [->|_];
    [exfalso; apply Hout; simpl; tauto |].
  destruct (String.eqb_spec output "mean") as [->|_];
    [exfalso; apply Hout; simpl; tauto |].
  reflexivity.
Qed.

End Gxg.

Lemma gxg_no_sample_nan_witness :
  gxg (P := rational_only) tiny_model mean_high None None "observations" None
      None "mean" = Ok (Scalar None).
Proof.
  assert (Hnone : forall t, In t (index one_point) ->
                            day t <> 14%Z /\ day t <> 28%Z).
  { intros t [<-|[]]. split; intros H; vm_compute in H; discriminate H. }
  exact (proj1 (gxg_no_sample_nan (P := rational_only) tiny_model None None
                  "observations" None None one_point one_point
                  eq_refl eq_refl "mean" Hnone) mean_high).
Defined.

Lemma gxg_invalid_output_witness :
  gxg (P := rational_only) sampled_model mean_high None None "simulated"
      (Some "ffill") (Some 3%Z) "bogus"
  = Raise (ValueError "bogus is not a valid output option").
Proof.
  assert (Hsome : exists t, In t (index (ffill (Some 3%nat)
                                          (resample_d mean_valid two_samples)))
                            /\ (day t = 14%Z \/ day t = 28%Z)).
  { exists (on 2020 1 14). split; [left; reflexivity | left; reflexivity]. }
  assert (Hout : ~ In "bogus" output_modes).
  { simpl. intros [H|[H|[]]]; discriminate H. }
  exact (gxg_invalid_output (P := rational_only) sampled_model None None
           "simulated" (Some "ffill") (Some 3%Z) two_samples _
           eq_refl eq_refl mean_high "bogus" Hsome Hout).
Defined.

(** C3 as stated fails: with no sample on a 14th or 28th [gxg] returns NaN
    before it looks at [output]. *)
Lemma gxg_invalid_output_not_checked :
  ~ In "bogus" output_modes
  /\ gxg (P := rational_only) tiny_model mean_high None None "observations"
         None None "bogus" = Ok (Scalar None)
  /\ forall msg,
       gxg (P := rational_only) tiny_model mean_high None None "observations"
           None None "bogus" <> Raise (ValueError msg).
Proof.
  split; [| split].
  - simpl. intros [H|[H|[]]]; discriminate H.
  - reflexivity.
  - intros msg H. vm_compute in H. discriminate H.
Qed.

(** An unknown key is reported first: the message then names the key. *)
Example gxg_invalid_key_first :
  gxg (P := rational_only) sampled_model mean_high None None "levels" None None
      "bogus" = Raise (ValueError "no timeseries with key levels").
Proof. reflexivity. Qed.

Example ghg_yearly_ex :
  ghg (P := rational_only) sampled_model None None "simulated" (Some "linear")
      (Some 15%Z) "yearly"
  = Ok (Yearly [(on 2020 12 31, Some ((2 + (1 + 0)) / Qlen [2; 1]))])%Q.
Proof. reflexivity. Qed.

(** ** Parameter counts: [rsq_adj], [bic], [aic] *)

(** [bic] and [aic] count the rows of the parameter table whose [vary] flag
    is set. *)
Lemma bic_aic_free_count {P : Primitives} (ml : Model)
  (tmin tmax : option Timestamp) (inn : Series) :
  innovations ml tmin tmax = Ok inn ->
  bic ml tmin tmax
  = Ok (fadd (fmul (Fin (-2 # 1)) (np_log (py_sum (series_sq inn))))
             (fmul (Fin (QZ (free_count (parameters ml))))
                   (np_log (Fin (QZ (size inn))))))
  /\ aic ml tmin tmax
     = Ok (fadd (fmul (Fin (-2 # 1)) (np_log (py_sum (series_sq inn))))
                (fmul (Fin 2) (Fin (QZ (free_count (parameters ml)))))).
Proof.
  intros H. unfold bic, aic. rewrite H. split; reflexivity.
Qed.

(** [rsq_adj] reads the attribute [nparam] of the model and never looks at
    the parameter table. *)
Lemma rsq_adj_ignores_table (ml : Model) (ps : list Param)
  (tmin tmax : option Timestamp) :
  rsq_adj (mkModel (observations ml) (simulate ml) (residuals ml)
                   (innovations ml) ps (nparam ml)) tmin tmax
  = rsq_adj ml tmin tmax.
Proof. reflexivity. Qed.

(** Away from the divisions by zero, [rsq_adj] is the adjusted formula with
    the attribute [nparam] for the parameter count. *)
Lemma rsq_adj_formula (ml : Model) (tmin tmax : option Timestamp)
  (obs res : Series) (t : Q) :
  observations ml tmin tmax = Ok obs ->
  residuals ml tmin tmax = Ok res ->
  size obs <> nparam ml ->
  py_sum (series_sq (series_sub_scalar obs (series_mean obs))) = Fin t ->
  ~ (t == 0)%Q ->
  rsq_adj ml tmin tmax
  = Ok (fsub (Fin 1)
          (fdiv (fmul (Fin ((QZ (size obs) - 1) / QZ (size obs - nparam ml))%Q)
                      (py_sum (series_sq res)))
                (Fin t))).
Proof.
  intros Hobs Hres Hn Ht Hnz. unfold rsq_adj. rewrite Hobs, Hres.
  cbn [bind]. cbv zeta.
  destruct (Z.eqb_spec (size obs - nparam ml) 0) as [E|_]; [lia |].
  rewrite Ht.
  destruct (Qeq_bool t 0) eqn:Ez; [| reflexivity].
  apply Qeq_bool_eq in Ez. contradiction.
Qed.

(** C1.  On a model with one free and one fixed parameter and [nparam = 2],
    [rsq_adj] computes with 2, not with the number of free parameters:
    N = 4, RSS = 1, TSS = 10 give 17/20, while the free-parameter count 1
    gives 9/10. *)
Theorem rsq_adj_counts_fixed_parameters :
  free_count (parameters fit_model) = 1%Z
  /\ nparam fit_model = 2%Z
  /\ exists v, rsq_adj fit_model None None = Ok (Fin v)
       /\ (v == adjusted 4 2 1 10)%Q
       /\ (v == 17 # 20)%Q
       /\ (adjusted 4 (free_count (parameters fit_model)) 1 10 == 9 # 10)%Q
       /\ ~ (v == adjusted 4 (free_count (parameters fit_model)) 1 10)%Q.
Proof.
  split; [reflexivity |]. split; [reflexivity |].
  eexists. split; [vm_compute; reflexivity |].
  repeat split; try reflexivity.
  vm_compute. discriminate.
Qed.

(** ** [d_ghg], [d_glg], [d_gvg] *)

Lemma series_quantile_ok (q : Q) (s : Series) :
  Qle_bool 0 q && Qle_bool q 1 = true ->
  exists c, series_quantile q s = Ok c.
Proof.
  intros H. unfold series_quantile. rewrite H.
  destruct (sort_values (valid (values s))); eexists; reflexivity.
Qed.

(** C5, amended.  When the model delivers the simulated and the observed
    series, [d_ghg], [d_glg] and [d_gvg] are the value of the quantile
    estimator [q_ghg], [q_glg], [q_gvg] on the simulated series minus its
    value on the observed series, for the same window. *)
Theorem d_gxg_quantile_difference (ml : Model) (tmin tmax : option Timestamp)
  (sim obs : Series) :
  simulate ml tmin tmax = Ok sim ->
  observations ml tmin tmax = Ok obs ->
  (exists a b,
      q_ghg ml tmin tmax "simulated" (94 # 100) = Ok a
      /\ q_ghg ml tmin tmax "observations" (94 # 100) = Ok b
      /\ d_ghg ml tmin tmax = Ok (fsub a b))
  /\ (exists a b,
      q_glg ml tmin tmax "simulated" (6 # 100) = Ok a
      /\ q_glg ml tmin tmax "observations" (6 # 100) = Ok b
      /\ d_glg ml tmin tmax = Ok (fsub a b))
  /\ q_gvg ml tmin tmax "simulated" = Ok (of_cell (median_valid (spring_values sim)))
  /\ q_gvg ml tmin tmax "observations" = Ok (of_cell (median_valid (spring_values obs)))
  /\ d_gvg ml tmin tmax
     = Ok (fsub (of_cell (median_valid (spring_values sim)))
                (of_cell (median_valid (spring_values obs)))).
Proof.
  intros Hsim Hobs.
  assert (Ks : bykey ml "simulated" tmin tmax = Ok sim) by exact Hsim.
  assert (Ko : bykey ml "observations" tmin tmax = Ok obs) by exact Hobs.
  split; [| split].
  - destruct (series_quantile_ok (94 # 100) (resample_d median_valid sim) eq_refl)
      as [a Ha].
    destruct (series_quantile_ok (94 # 100) (resample_d median_valid obs) eq_refl)
      as [b Hb].
    assert (Qa : q_ghg ml tmin tmax "simulated" (94 # 100) = Ok (of_cell a)).
    { unfold q_ghg. rewrite Ks. unfold bind at 1. rewrite Ha. reflexivity. }
    assert (Qb : q_ghg ml tmin tmax "observations" (94 # 100) = Ok (of_cell b)).
    { unfold q_ghg. rewrite Ko. unfold bind at 1. rewrite Hb. reflexivity. }
    exists (of_cell a), (of_cell b). split; [exact Qa |]. split; [exact Qb |].
    unfold d_ghg. rewrite Qa, Qb. reflexivity.
  - destruct (series_quantile_ok (6 # 100) (resample_d median_valid sim) eq_refl)
      as [a Ha].
    destruct (series_quantile_ok (6 # 100) (resample_d median_valid obs) eq_refl)
      as [b Hb].
    assert (Qa : q_glg ml tmin tmax "simulated" (6 # 100) = Ok (of_cell a)).
    { unfold q_glg. rewrite Ks. unfold bind at 1. rewrite Ha. reflexivity. }
    assert (Qb : q_glg ml tmin tmax "observations" (6 # 100) = Ok (of_cell b)).
    { unfold q_glg. rewrite Ko. unfold bind at 1. rewrite Hb. reflexivity. }
    exists (of_cell a), (of_cell b). split; [exact Qa |]. split; [exact Qb |].
    unfold d_glg. rewrite Qa, Qb. reflexivity.
  - pose proof (q_gvg_value ml tmin tmax _ sim Ks) as Qa.
    pose proof (q_gvg_value ml tmin tmax _ obs Ko) as Qb.
    split; [exact Qa |]. split; [exact Qb |].
    unfold d_gvg. rewrite Qa, Qb. reflexivity.
Qed.

Lemma d_gxg_quantile_difference_witness :
  d_gvg march_model None None
  = Ok (fsub (of_cell (median_valid (spring_values march_sim)))
             (of_cell (median_valid (spring_values march_obs)))).
Proof.
  exact (proj2 (proj2 (proj2 (proj2
           (d_gxg_quantile_difference march_model None None march_sim march_obs
              eq_refl eq_refl))))).
Defined.

(** C5 as stated fails: the differences are not differences of the presets
    [ghg], [glg], [gvg].  Here the three presets give 1 on the simulation and
    0 on the observations, while [d_ghg], [d_glg], [d_gvg] give 4.76, 1.24
    and 3. *)
Lemma d_gxg_not_preset_difference :
  preset_ghg (P := rational_only) march_model None None "simulated" = Ok (Fin 1)
  /\ preset_ghg (P := rational_only) march_model None None "observations" = Ok (Fin 0)
  /\ preset_glg (P := rational_only) march_model None None "simulated" = Ok (Fin 1)
  /\ preset_glg (P := rational_only) march_model None None "observations" = Ok (Fin 0)
  /\ preset_gvg (P := rational_only) march_model None None "simulated" = Ok (Fin 1)
  /\ preset_gvg (P := rational_only) march_model None None "observations" = Ok (Fin 0)
  /\ (exists a, d_ghg march_model None None = Ok (Fin a)
        /\ (a == 476 # 100)%Q /\ ~ feq (Fin a) (fsub (Fin 1) (Fin 0)))
  /\ (exists a, d_glg march_model None None = Ok (Fin a)
        /\ (a == 124 # 100)%Q /\ ~ feq (Fin a) (fsub (Fin 1) (Fin 0)))
  /\ (exists a, d_gvg march_model None None = Ok (Fin a)
        /\ (a == 3)%Q /\ ~ feq (Fin a) (fsub (Fin 1) (Fin 0))).
Proof.
  repeat match goal with |- _ /\ _ => split end;
    try (vm_compute; reflexivity);
    (eexists; split; [vm_compute; reflexivity |];
     split; [reflexivity | vm_compute; discriminate]).
Qed.

(** ** [many] *)

Section Many.

Context {P : Primitives}.
Variable ml : Model.
Variables tmin tmax : option Timestamp.

(** The statistic named [k], called on its own. *)
Let call (k : string) : Result Float := getattr ml k tmin tmax.

Let val (k : string) : Float :=
  match call k with
  | Ok v => v
  | Raise _ => NaN
  end.

(** The row after the assignments for the names [ks]. *)
Let assigned (ks cols : list string) (row : list Float) : list Float :=
  map (fun cx => if existsb (String.eqb (fst cx)) ks then val (fst cx) else snd cx)
      (combine cols row).

Lemma setitem_combine (k : string) (v : Float) (cols : list string)
  (row : list Float) :
  length cols = length row ->
  setitem k v cols row
  = map (fun cx => if fst cx =? k then v else snd cx) (combine cols row).
Proof.
  revert row. induction cols as [|c cols IH]; intros [|x row] H; simpl in *;
    try reflexivity; try discriminate.
  f_equal. apply IH. now injection H.
Qed.

Lemma setitem_length (k : string) (v : Float) (cols : list string)
  (row : list Float) : length (setitem k v cols row) = length row.
Proof.
  revert row. induction cols as [|c cols IH]; intros [|x row]; simpl;
    try reflexivity.
  f_equal. apply IH.
Qed.

Lemma assigned_step (k : string) (r cols : list string) (row : list Float) :
  length cols = length row ->
  assigned r cols (setitem k (val k) cols row) = assigned (k :: r) cols row.
Proof.
  intros H. unfold assigned. rewrite (setitem_combine _ _ _ _ H).
  clear H. revert row. induction cols as [|c cols IH]; intros [|x row]; simpl;
    try reflexivity.
  f_equal; [| apply IH].
  destruct (existsb (String.eqb c) r) eqn:Er.
  - rewrite orb_true_r. reflexivity.
  - rewrite orb_false_r. destruct (String.eqb_spec c k) as [->|_]; reflexivity.
Qed.

Lemma mapM_call_values (ks : list string) (vs : list Float) :
  mapM call ks = Ok vs -> vs = map val ks.
Proof.
  revert vs. induction ks as [|k r IH]; simpl; intros vs H.
  - now injection H as <-.
  - unfold val at 1. destruct (call k) as [v|e]; simpl in H; [| discriminate].
    destruct (mapM call r) as [ws|e]; simpl in H; [| discriminate].
    injection H as <-. f_equal. now apply IH.
Qed.

Lemma assigned_nil (cols : list string) (row : list Float) :
  length cols = length row -> assigned [] cols row = row.
Proof.
  unfold assigned. revert row.
  induction cols as [|c cols IH]; intros [|x row] H; simpl in *;
    try reflexivity; try discriminate.
  f_equal. apply IH. now injection H.
Qed.

Lemma assigned_all (cols : list string) (row : list Float) :
  length cols = length row -> assigned cols cols row = map val cols.
Proof.
  intros H. unfold assigned.
  assert (G : forall ks, (forall c, In c cols -> In c ks) ->
              map (fun cx => if existsb (String.eqb (fst cx)) ks
                             then val (fst cx) else snd cx) (combine cols row)
              = map val cols).
  { revert row H. induction cols as [|c cols IH]; intros [|x row] H ks Hin;
      simpl in *; try reflexivity; try discriminate.
    f_equal.
    - assert (E : existsb (String.eqb c) ks = true).
      { apply existsb_exists. exists c. split; [apply Hin; now left |].
        apply String.eqb_refl. }
      rewrite E. reflexivity.
    - apply IH; [now injection H |]. intros c' Hc'. apply Hin. now right. }
  apply G. auto.
Qed.

(** The loop of [many] fails where the first statistic fails, and otherwise
    leaves the value of each processed name in every column with that label. *)
Lemma many_loop_assigned (cols ks : list string) (row : list Float) :
  length cols = length row ->
  many_loop ml cols tmin tmax ks row
  = match mapM call ks with
    | Ok _ => Ok (assigned ks cols row)
    | Raise e => Raise e
    end.
Proof.
  revert row. induction ks as [|k r IH]; intros row H; simpl.
  - now rewrite assigned_nil.
  - fold (call k). pose proof (eq_refl (val k)) as Hv. unfold val at 2 in Hv.
    destruct (call k) as [v|e]; simpl; [| reflexivity].
    subst v. rewrite IH by (rewrite setitem_length; exact H).
    destruct (mapM call r); simpl; [| reflexivity].
    f_equal. now apply assigned_step.
Qed.

Lemma getattr_registered (k : string) :
  registered ml k -> getattr ml k tmin tmax = statistic ml k tmin tmax.
Proof.
  unfold registered. simpl. intros H.
  repeat (destruct H as [<-|H]; [reflexivity |]). contradiction.
Qed.

Lemma mapM_ext_in {A B : Type} (f g : A -> Result B) (l : list A) :
  (forall a, In a l -> f a = g a) -> mapM f l = mapM g l.
Proof.
  induction l as [|a l IH]; simpl; intros H; [reflexivity |].
  rewrite (H a (or_introl eq_refl)), IH; [reflexivity |].
  intros b Hb. apply H. now right.
Qed.

(** C9.  For a list of registered statistic identifiers, [many] returns the
    one-row table whose columns are the identifiers in order and whose cells
    are the results of the statistics of these names, each called on its own
    with the same window; if one of these calls raises, [many] raises the
    same.  Without a list, or with an empty one, the columns are [evp],
    [rmse], [rmsi] and [durbin_watson]; with [["evp", "rmse"]] they are the
    results of [evp] and [rmse]. *)
Theorem many_columns (stats : option (list string)) :
  ((forall k, In k (many_names stats) -> registered ml k) ->
   many ml tmin tmax stats
   = (vs <- mapM (fun k => statistic ml k tmin tmax) (many_names stats) ;;
      Ok (mkRow (many_names stats) vs)))
  /\ many_names None = ["evp"; "rmse"; "rmsi"; "durbin_watson"]
  /\ many_names (Some []) = ["evp"; "rmse"; "rmsi"; "durbin_watson"]
  /\ many ml tmin tmax None
     = (a <- evp ml tmin tmax ;;
        b <- rmse ml tmin tmax ;;
        c <- rmsi ml tmin tmax ;;
        d <- durbin_watson ml tmin tmax "innovations" ;;
        Ok (mkRow ["evp"; "rmse"; "rmsi"; "durbin_watson"] [a; b; c; d]))
  /\ many ml tmin tmax (Some []) = many ml tmin tmax None
  /\ many ml tmin tmax (Some ["evp"; "rmse"])
     = (a <- evp ml tmin tmax ;;
        b <- rmse ml tmin tmax ;;
        Ok (mkRow ["evp"; "rmse"] [a; b])).
Proof.
  assert (G : forall st,
             many ml tmin tmax st
             = (vs <- mapM call (many_names st) ;; Ok (mkRow (many_names st) vs))).
  { intros st.
    assert (E : many ml tmin tmax st
                = (row <- many_loop ml (many_names st) tmin tmax (many_names st)
                            (repeat NaN (length (many_names st))) ;;
                   Ok (mkRow (many_names st) row))).
    { destruct st as [[|k l]|]; reflexivity. }
    rewrite E. clear E.
    assert (L : length (many_names st)
                = length (repeat NaN (length (many_names st))))
      by now rewrite repeat_length.
    rewrite (many_loop_assigned _ _ _ L).
    fold call. destruct (mapM call (many_names st)) as [vs|e] eqn:M; simpl;
      [| reflexivity].
    rewrite (assigned_all _ _ L). now rewrite (mapM_call_values _ _ M). }
  split; [| split; [reflexivity | split; [reflexivity | split; [| split]]]].
  - intros Hreg. rewrite G. unfold call.
    rewrite (mapM_ext_in _ (fun k => statistic ml k tmin tmax)); [reflexivity |].
    intros k Hk. apply getattr_registered. now apply Hreg.
  - rewrite G. unfold call, many_names, default_stats. cbn [mapM].
    change (getattr ml "evp" tmin tmax) with (evp ml tmin tmax).
    change (getattr ml "rmse" tmin tmax) with (rmse ml tmin tmax).
    change (getattr ml "rmsi" tmin tmax) with (rmsi ml tmin tmax).
    change (getattr ml "durbin_watson" tmin tmax)
      with (durbin_watson ml tmin tmax "innovations").
    destruct (evp ml tmin tmax); [| reflexivity].
    destruct (rmse ml tmin tmax); [| reflexivity].
    destruct (rmsi ml tmin tmax); [| reflexivity].
    destruct (durbin_watson ml tmin tmax "innovations"); reflexivity.
  - reflexivity.
  - rewrite G. unfold call, many_names. cbn [mapM].
    change (getattr ml "evp" tmin tmax) with (evp ml tmin tmax).
    change (getattr ml "rmse" tmin tmax) with (rmse ml tmin tmax).
    destruct (evp ml tmin tmax); [| reflexivity].
    destruct (rmse ml tmin tmax); reflexivity.
Qed.

End Many.

Lemma many_columns_witness :
  many (P := rational_only) evp_model None None (Some ["evp"; "sse"; "evp"])
  = (vs <- mapM (fun k => statistic (P := rational_only) evp_model k None None)
                ["evp"; "sse"; "evp"] ;;
     Ok (mkRow ["evp"; "sse"; "evp"] vs)).
Proof.
  refine (proj1 (many_columns (P := rational_only) evp_model None None
                   (Some ["evp"; "sse"; "evp"])) _).
  intros k [<-|[<-|[<-|[]]]]; unfold registered; simpl; tauto.
Defined.

Example many_ex :
  many (P := rational_only) evp_model None None (Some ["evp"; "sse"; "evp"])
  = Ok (mkRow ["evp"; "sse"; "evp"]
          [Fin (10066329600 # 134217728); Fin (8 # 16); Fin (10066329600 # 134217728)]).
Proof. vm_compute. reflexivity. Qed.

Example many_default_ex :
  exists v, many (P := rational_only) evp_model None None None
            = Ok (mkRow ["evp"; "rmse"; "rmsi"; "durbin_watson"]
                    [v; Fin (500000000 # 1000000000);
                     Fin (500000000 # 1000000000); NaN]).
Proof. eexists. vm_compute. reflexivity. Qed.

(** ** [ghg] against [glg] *)

Section SortedValues.

Local Open Scope Q_scope.

Lemma insert_sorted_length (x : Q) (l : list Q) :
  length (insert_sorted x l) = S (length l).
Proof.
  induction l as [|y r IH]; simpl; [reflexivity |].
  destruct (Qle_bool x y); simpl; [reflexivity | now rewrite IH].
Qed.

Lemma sort_values_length (l : list Q) : length (sort_values l) = length l.
Proof.
  induction l as [|x l IH]; simpl; [reflexivity |].
  now rewrite insert_sorted_length, IH.
Qed.

Lemma insert_sorted_HdRel (y x : Q) (r : list Q) :
  HdRel Qle y r -> y <= x -> HdRel Qle y (insert_sorted x r).
Proof.
  intros Hr Hyx. destruct r as [|z r]; simpl.
  - now constructor.
  - destruct (Qle_bool x z); constructor; [exact Hyx |].
    now inversion Hr.
Qed.

Lemma insert_sorted_Sorted (x : Q) (l : list Q) :
  Sorted Qle l -> Sorted Qle (insert_sorted x l).
Proof.
  induction l as [|y r IH]; simpl; intros Hs.
  - repeat constructor.
  - destruct (Qle_bool x y) eqn:E.
    + constructor; [exact Hs |]. constructor. now apply Qle_bool_iff.
    + apply Sorted_inv in Hs as [Hr Hy].
      constructor; [now apply IH |].
      apply insert_sorted_HdRel; [exact Hy |].
      apply Qlt_le_weak, Qnot_le_lt. intros H. apply Qle_bool_iff in H. congruence.
Qed.

Lemma sort_values_Sorted (l : list Q) : Sorted Qle (sort_values l).
Proof.
  induction l as [|x l IH]; simpl; [constructor | now apply insert_sorted_Sorted].
Qed.

Lemma Qsum_app (l1 l2 : list Q) : Qsum (l1 ++ l2)%list == Qsum l1 + Qsum l2.
Proof.
  induction l1 as [|x l1 IH]; simpl.
  - now rewrite Qplus_0_l.
  - rewrite IH. apply Qplus_assoc.
Qed.

Lemma Qsum_rev (l : list Q) : Qsum (rev l) == Qsum l.
Proof.
  induction l as [|x l IH]; simpl; [reflexivity |].
  rewrite Qsum_app, IH. simpl. rewrite Qplus_0_r. apply Qplus_comm.
Qed.

(** In a sorted list, a window of [k] values weighs less than the window one
    step to the right. *)
Lemma Qsum_firstn_shift (k : nat) (a : Q) (t : list Q) :
  Sorted Qle (a :: t) -> (k <= length t)%nat ->
  Qsum (firstn k (a :: t)) <= Qsum (firstn k t).
Proof.
  revert a t. induction k as [|k IH]; intros a t Hs Hk; simpl.
  - apply Qle_refl.
  - destruct t as [|b t]; [simpl in Hk; lia |].
    apply Sorted_inv in Hs as [Hs Hab]. inversion Hab; subst.
    simpl. apply Qplus_le_compat; [assumption |].
    apply IH; [exact Hs | simpl in Hk; lia].
Qed.

Lemma Qsum_firstn_skipn (k d : nat) (t : list Q) :
  Sorted Qle t -> (k + d <= length t)%nat ->
  Qsum (firstn k t) <= Qsum (firstn k (skipn d t)).
Proof.
  revert t. induction d as [|d IH]; intros t Hs Hlen.
  - simpl. apply Qle_refl.
  - destruct t as [|a t]; [simpl in Hlen; lia |]. simpl skipn.
    apply Qle_trans with (Qsum (firstn k t)).
    + apply Qsum_firstn_shift; [exact Hs | simpl in Hlen; lia].
    + apply IH; [now apply Sorted_inv in Hs | simpl in Hlen; lia].
Qed.

(** The [k] smallest values of a list sum to at most the [k] largest. *)
Lemma smallest_le_largest (k : nat) (l : list Q) :
  Qsum (firstn k (sort_values l)) <= Qsum (firstn k (rev (sort_values l))).
Proof.
  pose proof (sort_values_Sorted l) as Hs.
  set (t := sort_values l) in *.
  rewrite firstn_rev, Qsum_rev.
  destruct (Nat.le_gt_cases k (length t)) as [Hk|Hk].
  - apply Qle_trans with (Qsum (firstn k (skipn (length t - k) t))).
    + apply Qsum_firstn_skipn; [exact Hs | lia].
    + rewrite firstn_all2; [apply Qle_refl |]. rewrite length_skipn. lia.
  - replace (length t - k)%nat with 0%nat by lia. simpl.
    rewrite firstn_all2 by lia. apply Qle_refl.
Qed.

Lemma smallest_largest_length (k : nat) (l : list Q) :
  length (firstn k (sort_values l)) = length (firstn k (rev (sort_values l))).
Proof. now rewrite !length_firstn, length_rev. Qed.

End SortedValues.

Lemma mean_valid_le (l1 l2 : list Q) :
  length l1 = length l2 -> (Qsum l1 <= Qsum l2)%Q ->
  cell_le (mean_valid l1) (mean_valid l2).
Proof.
  intros Hlen Hsum.
  destruct l1 as [|x1 l1], l2 as [|x2 l2]; try discriminate; [exact I |].
  unfold mean_valid, cell_le, Qlen. rewrite Hlen.
  apply Qmult_le_compat_r; [exact Hsum |].
  apply Qinv_le_0_compat. unfold Qle. simpl. lia.
Qed.

Lemma mean_low_le_high (g : Series) : cell_le (mean_low g) (mean_high g).
Proof.
  unfold mean_low, mean_high, nsmallest, nlargest. apply mean_valid_le.
  - apply smallest_largest_length.
  - apply smallest_le_largest.
Qed.


Lemma valid_le (c1 c2 : list Cell) :
  Forall2 cell_le c1 c2 ->
  length (valid c1) = length (valid c2)
  /\ (Qsum (valid c1) <= Qsum (valid c2))%Q.
Proof.
  induction 1 as [|a b c1 c2 Hab _ [IHl IHs]]; simpl.
  - split; [reflexivity | apply Qle_refl].
  - destruct a as [x|], b as [y|]; simpl in *; try contradiction.
    + split; [now f_equal | now apply Qplus_le_compat].
    + now split.
Qed.





Lemma resample_a_values (year_agg : Series -> Cell) (r : Series) :
  values (resample_a year_agg r)
  = map (fun y => year_agg (filter (fun p => (year (fst p) =? y)%Z) r))
        (span (map year (index r))).
Proof.
  unfold values, resample_a. rewrite map_map. reflexivity.
Qed.

(** Year by year the low mean is below the high mean, and so are the means
    over the years. *)
Lemma yearly_low_le_high (r : Series) :
  cell_le (series_mean (resample_a mean_low r))
          (series_mean (resample_a mean_high r)).
Proof.
  unfold series_mean. rewrite !resample_a_values.
  assert (F : Forall2 cell_le
                (map (fun y => mean_low (filter (fun p => (year (fst p) =? y)%Z) r))
                     (span (map year (index r))))
                (map (fun y => mean_high (filter (fun p => (year (fst p) =? y)%Z) r))
                     (span (map year (index r))))).
  { induction (span (map year (index r))) as [|y ys IH]; simpl; constructor;
      [apply mean_low_le_high | exact IH]. }
  apply valid_le in F as [Hl Hs]. now apply mean_valid_le.
Qed.





Example ghg_glg_values :
  exists h l,
    ghg (P := rational_only) two_years_model None None "observations" None None
        "mean" = Ok (Scalar (Some h))
    /\ glg (P := rational_only) two_years_model None None "observations" None
           None "mean" = Ok (Scalar (Some l))
    /\ (h == 19 # 6)%Q /\ (l == 7 # 3)%Q.
Proof.
  do 2 eexists.
  split; [vm_compute; reflexivity |].
  split; [vm_compute; reflexivity |].
  split; vm_compute; reflexivity.
Qed.


(** ** [q_gvg] on the points of the series *)













(** One point in the window, others around it: the value of that point. *)
Example q_gvg_one_point :
  q_gvg spring_model None None "observations" = Ok (Fin (7 # 4)).
Proof. vm_compute. reflexivity. Qed.

(** * Further properties *)

(** ** Error metrics on degenerate and on complete series *)

Lemma py_sum_from_nan (cs : list Cell) :
  fold_left (fun acc c => fadd acc (of_cell c)) cs NaN = NaN.
Proof. induction cs as [|c cs IH]; simpl; [reflexivity | exact IH]. Qed.

(** A left fold of squares from a non-negative number: NaN as soon as a cell
    is missing, otherwise a number that has not decreased. *)
Lemma py_sum_sq_from (s : Series) (a : Q) :
  (0 <= a)%Q ->
  (In None (values s) ->
     fold_left (fun acc c => fadd acc (of_cell c)) (values (series_sq s)) (Fin a)
     = NaN)
  /\ (~ In None (values s) ->
      exists v, fold_left (fun acc c => fadd acc (of_cell c))
                  (values (series_sq s)) (Fin a) = Fin v /\ (a <= v)%Q).
Proof.
  revert a. induction s as [|[t [x|]] s IH]; intros a Ha; simpl.
  - split; [contradiction |]. intros _. exists a. split; [reflexivity | apply Qle_refl].
  - assert (Hx : (0 <= x * x)%Q).
    { destruct (Qlt_le_dec x 0) as [Hd|Hd].
      - setoid_replace (x * x)%Q with ((- x) * (- x))%Q by ring.
        apply Qmult_le_0_compat; apply (Qopp_le_compat x 0); now apply Qlt_le_weak.
      - now apply Qmult_le_0_compat. }
    assert (Hax : (a <= a + x * x)%Q).
    { setoid_replace a with (a + 0)%Q at 1 by ring.
      apply Qplus_le_compat; [apply Qle_refl | exact Hx]. }
    destruct (IH (a + x * x)%Q (Qle_trans _ _ _ Ha Hax)) as [IHn IHv].
    split.
    + intros [H|H]; [discriminate | now apply IHn].
    + intros H. destruct IHv as [v [Ev Hv]]; [tauto |].
      exists v. split; [exact Ev | now apply Qle_trans with (a + x * x)%Q].
  - split.
    + intros _. apply py_sum_from_nan.
    + intros H. exfalso. apply H. now left.
Qed.

Lemma py_sum_sq_cases (s : Series) :
  (In None (values s) -> py_sum (series_sq s) = NaN)
  /\ (~ In None (values s) ->
      exists v, py_sum (series_sq s) = Fin v /\ (0 <= v)%Q).
Proof. unfold py_sum. apply py_sum_sq_from. apply Qle_refl. Qed.

(** X1.  [sse] is a non-negative number when no residual is missing, and NaN
    as soon as one is: the builtin [sum] does not skip NaN. *)
Theorem sse_nonneg_or_nan (ml : Model) (tmin tmax : option Timestamp)
  (res : Series) :
  residuals ml tmin tmax = Ok res ->
  (complete res -> exists v, sse ml tmin tmax = Ok (Fin v) /\ (0 <= v)%Q)
  /\ (In None (values res) -> sse ml tmin tmax = Ok NaN).
Proof.
  intros H. unfold sse, complete. rewrite H. simpl.
  destruct (py_sum_sq_cases res) as [Hn Hv]. split.
  - intros Hc. destruct (Hv Hc) as [v [E Hle]]. exists v. now rewrite E.
  - intros Hi. now rewrite (Hn Hi).
Qed.

Lemma sse_nonneg_or_nan_witness :
  exists v, sse fit_model None None = Ok (Fin v) /\ (0 <= v)%Q.
Proof.
  assert (Hc : complete fit_res).
  { unfold complete. simpl. intros [H|[H|[H|[H|[]]]]]; discriminate H. }
  exact (proj1 (sse_nonneg_or_nan fit_model None None fit_res eq_refl) Hc).
Defined.

(** X2.  On an empty residual series [rmse] raises [ZeroDivisionError]
    (an integer zero divided by the integer size), while [sse] is 0 and
    [avg_dev] is NaN; [rmsi] raises in the same way on empty innovations. *)
Theorem empty_series_metrics {P : Primitives} (ml : Model)
  (tmin tmax : option Timestamp) :
  (residuals ml tmin tmax = Ok [] ->
     rmse ml tmin tmax = Raise ZeroDivisionError
     /\ sse ml tmin tmax = Ok (Fin 0)
     /\ avg_dev ml tmin tmax = Ok NaN)
  /\ (innovations ml tmin tmax = Ok [] ->
      rmsi ml tmin tmax = Raise ZeroDivisionError).
Proof.
  split; intros H.
  - unfold rmse, sse, avg_dev. rewrite H. repeat split; reflexivity.
  - unfold rmsi. rewrite H. reflexivity.
Qed.

Lemma empty_series_metrics_witness :
  rmse (P := rational_only) spring_model None None = Raise ZeroDivisionError
  /\ sse spring_model None None = Ok (Fin 0)
  /\ avg_dev spring_model None None = Ok NaN.
Proof.
  exact (proj1 (empty_series_metrics (P := rational_only) spring_model None None)
               eq_refl).
Defined.

Lemma Qsq_nonneg (x : Q) : (0 <= x * x)%Q.
Proof.
  destruct (Qlt_le_dec x 0) as [Hd|Hd].
  - setoid_replace (x * x)%Q with ((- x) * (- x))%Q by ring.
    apply Qmult_le_0_compat; apply (Qopp_le_compat x 0); now apply Qlt_le_weak.
  - now apply Qmult_le_0_compat.
Qed.

(** The builtin [sum] of a series of squares is NaN or a non-negative number. *)
Lemma py_sum_sq_fin (s : Series) (v : Q) :
  py_sum (series_sq s) = Fin v -> (0 <= v)%Q.
Proof.
  unfold py_sum. generalize (Qle_refl 0). generalize 0%Q at 2 3 as a.
  induction s as [|[t [x|]] s IH]; intros a Ha; simpl.
  - intros E. now injection E as <-.
  - apply IH. apply Qle_trans with (0 + 0)%Q; [apply Qle_refl |].
    apply Qplus_le_compat; [exact Ha | apply Qsq_nonneg].
  - rewrite py_sum_from_nan. discriminate.
Qed.

Lemma py_sum_not_inf (s : Series) :
  py_sum s <> PInf /\ py_sum s <> NInf.
Proof.
  unfold py_sum. generalize 0%Q as a.
  induction (values s) as [|[x|] cs IH]; intros a; simpl.
  - split; discriminate.
  - apply IH.
  - rewrite py_sum_from_nan. split; discriminate.
Qed.

(** X3.  When the number of observations equals [ml.nparam], [rsq_adj] raises
    [ZeroDivisionError]: the quotient [(N - 1.0) / (N - nparam)] is a Python
    division by an integer zero. *)
Theorem rsq_adj_zero_division (ml : Model) (tmin tmax : option Timestamp)
  (obs res : Series) :
  observations ml tmin tmax = Ok obs ->
  residuals ml tmin tmax = Ok res ->
  size obs = nparam ml ->
  rsq_adj ml tmin tmax = Raise ZeroDivisionError.
Proof.
  intros Hobs Hres Hn. unfold rsq_adj. rewrite Hobs, Hres. simpl.
  rewrite Hn, Z.sub_diag. reflexivity.
Qed.

Lemma rsq_adj_zero_division_witness :
  rsq_adj (constant_model evp_obs evp_obs evp_res evp_res fit_table 2) None None
  = Raise ZeroDivisionError.
Proof.
  exact (rsq_adj_zero_division
           (constant_model evp_obs evp_obs evp_res evp_res fit_table 2)
           None None evp_obs evp_res eq_refl eq_refl eq_refl).
Defined.

(** X4.  With fewer parameters than observations, a finite value of
    [rsq_adj] is at most 1. *)
Theorem rsq_adj_le_1 (ml : Model) (tmin tmax : option Timestamp)
  (obs : Series) (r : Q) :
  observations ml tmin tmax = Ok obs ->
  (nparam ml < size obs)%Z ->
  rsq_adj ml tmin tmax = Ok (Fin r) ->
  (r <= 1)%Q.
Proof.
  intros Hobs Hk H. unfold rsq_adj in H. rewrite Hobs in H. cbn [bind] in H.
  destruct (residuals ml tmin tmax) as [res|e]; [| discriminate].
  cbn [bind] in H. cbv zeta in H.
  destruct (Z.eqb_spec (size obs - nparam ml) 0) as [E|_]; [lia |].
  pose proof (py_sum_sq_fin res) as HR.
  pose proof (py_sum_sq_fin (series_sub_scalar obs (series_mean obs))) as HT.
  destruct (py_sum_not_inf (series_sq res)) as [HRp HRn].
  destruct (py_sum_not_inf (series_sq (series_sub_scalar obs (series_mean obs))))
    as [HTp HTn].
  remember (py_sum (series_sq (series_sub_scalar obs (series_mean obs)))) as TSS
    eqn:ETSS.
  remember (py_sum (series_sq res)) as RSS eqn:ERSS.
  set (c := ((QZ (size obs) - 1) / QZ (size obs - nparam ml))%Q) in *.
  destruct TSS as [t| | |]; try congruence.
  2: { destruct (fmul (Fin c) RSS); discriminate. }
  destruct (Qeq_bool t 0) eqn:Et; [discriminate |].
  assert (H' : fsub (Fin 1) (fdiv (fmul (Fin c) RSS) (Fin t)) = Fin r)
    by congruence.
  clear H.
  destruct RSS as [u| | |]; try congruence; [| discriminate].
  specialize (HR u eq_refl). specialize (HT t eq_refl).
  unfold fmul, fdiv in H'. rewrite Et in H'.
  assert (Hr : (1 + - (c * u / t))%Q = r) by (unfold fsub, fneg, fadd in H'; congruence).
  subst r.
  assert (Hobs1 : (1 <= size obs)%Z).
  { destruct obs as [|o obs']; [| unfold size; simpl; lia].
    exfalso. simpl in ETSS. injection ETSS as ->. discriminate Et. }
  assert (Hc : (0 <= c)%Q).
  { unfold c. apply Qle_shift_div_l.
    - unfold QZ, Qlt. simpl. lia.
    - rewrite Qmult_0_l. unfold QZ, Qle, Qminus. simpl. lia. }
  assert (Ht : (0 < t)%Q).
  { apply Qle_lt_or_eq in HT as [Ht|Ht]; [exact Ht |].
    assert (Qeq_bool t 0 = true) by (apply Qeq_bool_iff; now symmetry).
    congruence. }
  assert (Hq : (0 <= c * u / t)%Q).
  { apply Qle_shift_div_l; [exact Ht |]. rewrite Qmult_0_l.
    now apply Qmult_le_0_compat. }
  setoid_replace 1%Q with (1 + - 0)%Q at 2 by ring.
  apply Qplus_le_compat; [apply Qle_refl | now apply Qopp_le_compat].
Qed.

Lemma rsq_adj_le_1_witness :
  exists r, rsq_adj fit_model None None = Ok (Fin r) /\ (r <= 1)%Q.
Proof.
  eexists. split; [vm_compute; reflexivity |].
  refine (rsq_adj_le_1 fit_model None None fit_obs _ eq_refl _ _);
    [reflexivity | vm_compute; reflexivity].
Defined.

(** ** [evp] without a condition on the variance *)

Lemma Qsign_nonpos (q : Q) : (q <= 0)%Q -> Qsign q <> Gt.
Proof.
  unfold Qsign, Qle. simpl. intros H E. apply Z.compare_gt_iff in E. lia.
Qed.

(** X5.  Whenever the model delivers both series, [evp] is a number between
    0 and 100: observations without variance, or without any value, give 0
    and never NaN or an infinity. *)
Theorem evp_always_percentage (ml : Model) (tmin tmax : option Timestamp)
  (obs res : Series) :
  observations ml tmin tmax = Ok obs ->
  residuals ml tmin tmax = Ok res ->
  exists e, evp ml tmin tmax = Ok (Fin e) /\ (0 <= e)%Q /\ (e <= 100)%Q.
Proof.
  intros Hobs Hres. unfold evp. rewrite Hres, Hobs. simpl.
  assert (Zero : exists e, Ok (Fin 0) = Ok (Fin e) /\ (0 <= e)%Q /\ (e <= 100)%Q).
  { exists 0%Q. repeat split; discriminate. }
  destruct (np_var_cases obs) as [Eo|[vo [Eo Hvo]]]; rewrite Eo; [exact Zero |].
  destruct (np_var_cases res) as [Er|[vr [Er Hvr]]]; rewrite Er; [exact Zero |].
  unfold fsub, fneg, fadd, fdiv.
  destruct (Qeq_bool vo 0) eqn:Ez.
  - apply Qeq_bool_eq in Ez.
    assert (Hn : (vo + - vr <= 0)%Q).
    { rewrite Ez. rewrite Qplus_0_l.
      apply (Qopp_le_compat 0 vr). exact Hvr. }
    pose proof (Qsign_nonpos _ Hn) as Hs.
    destruct (Qsign (vo + - vr)); [exact Zero | exact Zero | congruence].
  - assert (Hpos : (0 < vo)%Q).
    { apply Qle_lt_or_eq in Hvo as [H|H]; [exact H |].
      assert (Qeq_bool vo 0 = true) by (apply Qeq_bool_iff; now symmetry).
      congruence. }
    unfold fmul, py_max, fgtb. fold (explained vo vr).
    destruct (Qle_bool (explained vo vr) 0) eqn:Ecmp; simpl; [exact Zero |].
    exists (explained vo vr). split; [reflexivity |]. split.
    + apply Qnot_lt_le. intros Hlt.
      assert (Qle_bool (explained vo vr) 0 = true)
        by (apply Qle_bool_iff; now apply Qlt_le_weak).
      congruence.
    + now apply explained_le_100.
Qed.

Lemma evp_always_percentage_witness :
  exists e, evp (constant_model flat_obs flat_obs evp_res evp_res [] 0) None None
            = Ok (Fin e) /\ (0 <= e)%Q /\ (e <= 100)%Q.
Proof.
  exact (evp_always_percentage
           (constant_model flat_obs flat_obs evp_res evp_res [] 0) None None
           flat_obs evp_res eq_refl eq_refl).
Defined.

Example evp_flat_observations :
  evp (constant_model flat_obs flat_obs evp_res evp_res [] 0) None None
  = Ok (Fin 0).
Proof. vm_compute. reflexivity. Qed.

(** ** [rmse] against [sse] *)

(** X6.  On a non-empty residual series whose [sse] is the number [s],
    [rmse] is the square root of [s / N]; where that root is exact, the
    square of [rmse] times [N] gives back [sse]. *)
Theorem rmse_squared_times_n {P : Primitives} (ml : Model)
  (tmin tmax : option Timestamp) (res : Series) (s q : Q) :
  residuals ml tmin tmax = Ok res ->
  res <> [] ->
  sse ml tmin tmax = Ok (Fin s) ->
  np_sqrt (Fin (s / QZ (size res))) = Fin q ->
  (q * q == s / QZ (size res))%Q ->
  rmse ml tmin tmax = Ok (Fin q) /\ (q * q * QZ (size res) == s)%Q.
Proof.
  intros Hres Hne Hsse Hsqrt Hexact.
  unfold sse in Hsse. rewrite Hres in Hsse. simpl in Hsse. injection Hsse as Hs.
  assert (HN : ~ (QZ (size res) == 0)%Q).
  { destruct res; [congruence |]. unfold QZ, size, Qeq. simpl. lia. }
  split.
  - unfold rmse. rewrite Hres. simpl.
    destruct (Z.eqb_spec (size res) 0) as [E|_].
    + exfalso. apply HN. rewrite E. reflexivity.
    + rewrite Hs. unfold fdiv.
      destruct (Qeq_bool (QZ (size res)) 0) eqn:Ez.
      * apply Qeq_bool_eq in Ez. contradiction.
      * now rewrite Hsqrt.
  - rewrite Hexact. field. exact HN.
Qed.

Lemma rmse_squared_times_n_witness :
  rmse (P := rational_only) unit_model None None
  = Ok (Fin (1000000000 # 1000000000)).
Proof.
  refine (proj1 (rmse_squared_times_n (P := rational_only) unit_model None None
                   unit_res (4 # 1) (1000000000 # 1000000000)
                   eq_refl _ _ _ _)).
  - discriminate.
  - vm_compute. reflexivity.
  - vm_compute. reflexivity.
  - vm_compute. reflexivity.
Defined.

(** The scenario of residuals 1, -1, 1, -1: [rmse] 1, [sse] 4, [avg_dev] 0. *)
Example unit_residuals :
  (exists r, rmse (P := rational_only) unit_model None None = Ok (Fin r)
             /\ (r == 1)%Q)
  /\ (exists s, sse unit_model None None = Ok (Fin s) /\ (s == 4)%Q)
  /\ (exists a, avg_dev unit_model None None = Ok (Fin a) /\ (a == 0)%Q).
Proof.
  repeat split; eexists; (split; [vm_compute; reflexivity | reflexivity]).
Qed.

(** ** Methods that take a series key *)

Lemma bykey_unknown (ml : Model) (key : string) (tmin tmax : option Timestamp) :
  ~ In key series_keys ->
  bykey ml key tmin tmax = Raise (ValueError ("no timeseries with key " ++ key)).
Proof.
  intros Hkey. unfold bykey.
  destruct (String.eqb_spec key "observations") as [->|_];
    [exfalso; apply Hkey; simpl; tauto |].
  destruct (String.eqb_spec key "simulated") as [->|_];
    [exfalso; apply Hkey; simpl; tauto |].
  destruct (String.eqb_spec key "residuals") as [->|_];
    [exfalso; apply Hkey; simpl; tauto |].
  destruct (String.eqb_spec key "innovations") as [->|_];
    [exfalso; apply Hkey; simpl; tauto |].
  reflexivity.
Qed.

(** X7.  Every method that takes a series key hands the [ValueError] of
    [bykey] on an unknown key to its caller, whatever its other arguments:
    [durbin_watson], the quantile estimators, [gxg] and its three presets. *)
Theorem unknown_key_propagates {P : Primitives} (ml : Model)
  (tmin tmax : option Timestamp) (key : string) :
  ~ In key series_keys ->
  durbin_watson ml tmin tmax key
  = Raise (ValueError ("no timeseries with key " ++ key))
  /\ (forall q, q_ghg ml tmin tmax key q
                = Raise (ValueError ("no timeseries with key " ++ key)))
  /\ (forall q, q_glg ml tmin tmax key q
                = Raise (ValueError ("no timeseries with key " ++ key)))
  /\ q_gvg ml tmin tmax key
     = Raise (ValueError ("no timeseries with key " ++ key))
  /\ (forall year_agg fill_method limit output,
        gxg ml year_agg tmin tmax key fill_method limit output
        = Raise (ValueError ("no timeseries with key " ++ key)))
  /\ (forall fill_method limit output,
        ghg ml tmin tmax key fill_method limit output
        = Raise (ValueError ("no timeseries with key " ++ key))
        /\ glg ml tmin tmax key fill_method limit output
           = Raise (ValueError ("no timeseries with key " ++ key))
        /\ gvg ml tmin tmax key fill_method limit output
           = Raise (ValueError ("no timeseries with key " ++ key))).
Proof.
  intros Hkey. pose proof (bykey_unknown ml key tmin tmax Hkey) as E.
  assert (G : forall year_agg fill_method limit output,
             gxg ml year_agg tmin tmax key fill_method limit output
             = Raise (ValueError ("no timeseries with key " ++ key))).
  { intros. unfold gxg. rewrite E. reflexivity. }
  split; [unfold durbin_watson; now rewrite E |].
  split; [intros q; unfold q_ghg; now rewrite E |].
  split; [intros q; unfold q_glg; now rewrite E |].
  split; [unfold q_gvg; now rewrite E |].
  split; [exact G |].
  intros. unfold ghg, glg, gvg. repeat split; apply G.
Qed.

Lemma unknown_key_propagates_witness :
  durbin_watson (P := rational_only) tiny_model None None "levels"
  = Raise (ValueError "no timeseries with key levels").
Proof.
  assert (H : ~ In "levels" series_keys).
  { simpl. intros [H|[H|[H|[H|[]]]]]; discriminate H. }
  exact (proj1 (unknown_key_propagates (P := rational_only) tiny_model None None
                  "levels" H)).
Defined.

(** ** The penalty terms of [aic] and [bic] *)

Lemma free_count_fixed (p : Param) (ps : list Param) :
  p_vary p = false -> free_count (p :: ps) = free_count ps.
Proof. intros H. unfold free_count. simpl. now rewrite H. Qed.

Lemma free_count_free (p : Param) (ps : list Param) :
  p_vary p = true -> free_count (p :: ps) = (free_count ps + 1)%Z.
Proof. intros H. unfold free_count. simpl. rewrite H. simpl length. lia. Qed.

(** X8.  [aic] and [bic] see the parameter table only through the number of
    its varied rows: a parameter that is not varied changes neither of them,
    and two tables with the same number of varied rows give the same [aic]
    and the same [bic], whatever the names, values and fixed rows are. *)
Theorem information_criteria_penalty {P : Primitives} (ml : Model)
  (p : Param) (tmin tmax : option Timestamp) :
  (p_vary p = false ->
     aic (with_parameters ml (p :: parameters ml)) tmin tmax = aic ml tmin tmax
     /\ bic (with_parameters ml (p :: parameters ml)) tmin tmax = bic ml tmin tmax)
  /\ (forall ps,
        free_count ps = free_count (parameters ml) ->
        aic (with_parameters ml ps) tmin tmax = aic ml tmin tmax
        /\ bic (with_parameters ml ps) tmin tmax = bic ml tmin tmax).
Proof.
  assert (G : forall ps,
             free_count ps = free_count (parameters ml) ->
             aic (with_parameters ml ps) tmin tmax = aic ml tmin tmax
             /\ bic (with_parameters ml ps) tmin tmax = bic ml tmin tmax).
  { intros ps Hps. unfold aic, bic, with_parameters.
    cbn [innovations parameters]. rewrite Hps. split; reflexivity. }
  split; [| exact G].
  intros Hp. apply G. now apply free_count_fixed.
Qed.

Lemma information_criteria_penalty_witness :
  exists a b,
    aic (P := rational_only) log_model None None = Ok (Fin a)
    /\ aic (P := rational_only)
           (with_parameters log_model
              (mkParam "noise_alpha" 1 false :: parameters log_model)) None None
       = Ok (Fin a)
    /\ aic (P := rational_only) (with_parameters log_model other_table)
           None None = Ok (Fin a)
    /\ bic (P := rational_only) log_model None None = Ok (Fin b)
    /\ bic (P := rational_only)
           (with_parameters log_model
              (mkParam "noise_alpha" 1 false :: parameters log_model)) None None
       = Ok (Fin b)
    /\ bic (P := rational_only) (with_parameters log_model other_table)
           None None = Ok (Fin b).
Proof.
  destruct (information_criteria_penalty (P := rational_only)
              log_model (mkParam "noise_alpha" 1 false) None None) as [Hfix Hsame].
  destruct (Hfix eq_refl) as [Ha Hb].
  destruct (Hsame other_table eq_refl) as [Ha' Hb'].
  rewrite Ha, Hb, Ha', Hb'. do 2 eexists.
  split; [vm_compute; reflexivity |]. split; [vm_compute; reflexivity |].
  split; [vm_compute; reflexivity |]. split; [vm_compute; reflexivity |].
  split; vm_compute; reflexivity.
Defined.

(** ** [ghg], [glg] and [gvg] on every input *)

Section GxgSteps.

Context {P : Primitives}.
Variable ml : Model.
Variables tmin tmax : option Timestamp.
Variable key : string.
Variable fill_method : option string.
Variable limit : option Z.

Lemma gxg_key_error (year_agg : Series -> Cell) (output : string) (e : exn) :
  bykey ml key tmin tmax = Raise e ->
  gxg ml year_agg tmin tmax key fill_method limit output = Raise e.
Proof. intros H. unfold gxg. rewrite H. reflexivity. Qed.

Lemma gxg_fill_error (year_agg : Series -> Cell) (output : string)
  (s : Series) (e : exn) :
  bykey ml key tmin tmax = Ok s ->
  resample_fill fill_method limit s = Raise e ->
  gxg ml year_agg tmin tmax key fill_method limit output = Raise e.
Proof.
  intros Hk Hf. unfold gxg. rewrite Hk. unfold bind at 1.
  unfold resample_fill in Hf. cbv zeta in Hf. rewrite Hf. reflexivity.
Qed.

Lemma resample_a_index (f g : Series -> Cell) (r : Series) :
  index (resample_a f r) = index (resample_a g r).
Proof. unfold index, resample_a. rewrite !map_map. reflexivity. Qed.

Lemma yearly_pointwise (r : Series) :
  Forall2 cell_le (values (resample_a mean_low r))
                  (values (resample_a mean_high r)).
Proof.
  rewrite !resample_a_values.
  induction (span (map year (index r))) as [|y ys IH]; simpl; constructor;
    [apply mean_low_le_high | exact IH].
Qed.

Lemma cell_le_same (a b : Cell) : cell_le a b -> cell_same a b.
Proof. destruct a, b; simpl; tauto. Qed.

(** X9.  For every input, [ghg] and [glg] called with the same arguments end
    the same way.  With [output = "mean"] both raise the same exception, or
    both return NaN, or both return numbers.  With [output = "yearly"] both
    raise the same exception, or both return the scalar NaN, or they return
    series over the same years that are NaN in the same years. *)
Theorem ghg_glg_paired :
  match ghg ml tmin tmax key fill_method limit "mean",
        glg ml tmin tmax key fill_method limit "mean" with
  | Ok (Scalar h), Ok (Scalar l) => cell_same l h
  | Raise e1, Raise e2 => e1 = e2
  | _, _ => False
  end
  /\ match ghg ml tmin tmax key fill_method limit "yearly",
           glg ml tmin tmax key fill_method limit "yearly" with
     | Ok (Yearly yh), Ok (Yearly yl) =>
         index yl = index yh /\ Forall2 cell_same (values yl) (values yh)
     | Ok (Scalar None), Ok (Scalar None) => True
     | Raise e1, Raise e2 => e1 = e2
     | _, _ => False
     end.
Proof.
  unfold ghg, glg.
  destruct (bykey ml key tmin tmax) as [s|e] eqn:Hk.
  2: { rewrite !(gxg_key_error _ _ e Hk). split; reflexivity. }
  destruct (resample_fill fill_method limit s) as [filled|e] eqn:Hf.
  2: { rewrite !(gxg_fill_error _ _ s e Hk Hf). split; reflexivity. }
  rewrite !(gxg_filled ml tmin tmax key fill_method limit s filled Hk Hf).
  destruct (np_any the14or28 filled); simpl.
  - split; [apply cell_le_same, yearly_low_le_high |].
    split; [apply resample_a_index |].
    eapply Forall2_impl; [| apply yearly_pointwise].
    intros a b. apply cell_le_same.
  - split; exact I.
Qed.

(** X10.  [gxg] with [output = "mean"] is the mean, skipping NaN, of the
    series it returns with [output = "yearly"]; where the yearly call
    returns NaN or raises, the mean call does the same. *)
Theorem gxg_mean_of_yearly (year_agg : Series -> Cell) :
  gxg ml year_agg tmin tmax key fill_method limit "mean"
  = match gxg ml year_agg tmin tmax key fill_method limit "yearly" with
    | Ok (Yearly yearly) => Ok (Scalar (series_mean yearly))
    | r => r
    end.
Proof.
  destruct (bykey ml key tmin tmax) as [s|e] eqn:Hk.
  2: { rewrite !(gxg_key_error _ _ e Hk). reflexivity. }
  destruct (resample_fill fill_method limit s) as [filled|e] eqn:Hf.
  2: { rewrite !(gxg_fill_error _ _ s e Hk Hf). reflexivity. }
  rewrite !(gxg_filled ml tmin tmax key fill_method limit s filled Hk Hf).
  destruct (np_any the14or28 filled); reflexivity.
Qed.

Lemma spring_sample_inspring (t : Timestamp) :
  the14or28 t = true -> isinspring t = spring_sample t.
Proof.
  unfold the14or28, isinspring, spring_sample. intros H.
  apply orb_true_iff in H as [H|H]; apply Z.eqb_eq in H; rewrite H; simpl;
    destruct (month t =? 3)%Z, (month t =? 4)%Z; reflexivity.
Qed.

Lemma loc_mask_ext_in (f g : Timestamp -> bool) (s : Series) :
  (forall t, In t (index s) -> f t = g t) -> loc_mask f s = loc_mask g s.
Proof.
  unfold loc_mask, index. induction s as [|[t c] s IH]; simpl; intros H;
    [reflexivity |].
  rewrite (H t (or_introl eq_refl)), IH; [reflexivity |].
  intros t' Ht'. apply H. now right.
Qed.

(** On samples of the 14th and 28th the spring aggregator of [gvg] is the
    mean over 14 March, 28 March and 14 April. *)
Lemma mean_spring_samples (g : Series) :
  (forall t, In t (index g) -> the14or28 t = true) ->
  __mean_spring__ g = series_mean (loc_mask spring_sample g).
Proof.
  intros H. unfold __mean_spring__, __inspring__.
  rewrite <- (loc_mask_ext_in isinspring spring_sample g)
    by (intros t Ht; apply spring_sample_inspring; now apply H).
  destruct (np_any isinspring g) eqn:E; [reflexivity |].
  now rewrite (np_any_false_loc_mask _ _ E).
Qed.

Lemma retained_year_group (filled : Series) (y : Z) (t : Timestamp) :
  In t (index (filter (fun p => (year (fst p) =? y)%Z) (retained filled))) ->
  the14or28 t = true.
Proof.
  unfold index. intros H. apply in_map_iff in H as [[t' c] [<- Hin]].
  apply filter_In in Hin as [Hin _]. unfold retained, loc_mask in Hin.
  apply filter_In in Hin as [_ Hin]. exact Hin.
Qed.

(** X11.  [gvg] is [gxg] with the yearly mean of the values of 14 March,
    28 March and 14 April, as its docstring says: of the spring window
    14 March..14 April only these three dates survive the sampling on the
    14th and 28th. *)
Theorem gvg_three_dates (output : string) :
  gvg ml tmin tmax key fill_method limit output
  = gxg ml (fun g => series_mean (loc_mask spring_sample g))
        tmin tmax key fill_method limit output.
Proof.
  unfold gvg.
  destruct (bykey ml key tmin tmax) as [s|e] eqn:Hk.
  2: { rewrite !(gxg_key_error _ _ e Hk). reflexivity. }
  destruct (resample_fill fill_method limit s) as [filled|e] eqn:Hf.
  2: { rewrite !(gxg_fill_error _ _ s e Hk Hf). reflexivity. }
  rewrite !(gxg_filled ml tmin tmax key fill_method limit s filled Hk Hf).
  destruct (np_any the14or28 filled); [| reflexivity]. simpl.
  assert (E : resample_a __mean_spring__ (retained filled)
              = resample_a (fun g => series_mean (loc_mask spring_sample g))
                           (retained filled)).
  { unfold resample_a. apply map_ext. intros y. f_equal.
    apply mean_spring_samples. intros t Ht.
    exact (retained_year_group filled y t Ht). }
  rewrite E. reflexivity.
Qed.

End GxgSteps.

Example gvg_ex :
  exists v,
    gvg (P := rational_only)
        (constant_model [] [(on 2020 3 14, Some 1%Q); (on 2020 3 20, Some 50%Q);
                            (on 2020 3 28, Some 2%Q); (on 2020 4 14, Some 6%Q);
                            (on 2020 4 28, Some 70%Q)] [] [] [] 0)
        None None "simulated" None None "mean"
    = Ok (Scalar (Some v)) /\ (v == 3)%Q.
Proof. eexists. split; [vm_compute; reflexivity | reflexivity]. Qed.

(** ** Years with few samples *)

Lemma Qsum_insert_sorted (x : Q) (l : list Q) :
  (Qsum (insert_sorted x l) == x + Qsum l)%Q.
Proof.
  induction l as [|y r IH]; simpl; [reflexivity |].
  destruct (Qle_bool x y); simpl; [reflexivity |].
  rewrite IH. ring.
Qed.

Lemma Qsum_sort_values (l : list Q) : (Qsum (sort_values l) == Qsum l)%Q.
Proof.
  induction l as [|x l IH]; simpl; [reflexivity |].
  now rewrite Qsum_insert_sorted, IH.
Qed.

Lemma mean_valid_eq (l1 l2 : list Q) :
  length l1 = length l2 -> (Qsum l1 == Qsum l2)%Q ->
  cell_eq (mean_valid l1) (mean_valid l2).
Proof.
  intros Hlen Hsum.
  destruct l1 as [|x1 l1], l2 as [|x2 l2]; try discriminate; [exact I |].
  unfold mean_valid, cell_eq, Qlen. rewrite Hlen, Hsum. reflexivity.
Qed.

(** With at most three values both yearly aggregators are the plain mean. *)
Lemma few_values_plain_mean (g : Series) :
  (length (valid (values g)) <= 3)%nat ->
  cell_eq (mean_high g) (series_mean g) /\ cell_eq (mean_low g) (series_mean g).
Proof.
  intros H. unfold mean_high, mean_low, nlargest, nsmallest, series_mean.
  pose proof (sort_values_length (valid (values g))) as L.
  split.
  - rewrite firstn_all2 by (rewrite length_rev; lia).
    apply mean_valid_eq; [now rewrite length_rev |].
    now rewrite Qsum_rev, Qsum_sort_values.
  - rewrite firstn_all2 by lia.
    apply mean_valid_eq; [exact L | apply Qsum_sort_values].
Qed.

Lemma cell_eq_trans_sym (a b c : Cell) : cell_eq a c -> cell_eq b c -> cell_eq a b.
Proof.
  destruct a, b, c; simpl; try tauto. intros H1 H2. now rewrite H1, H2.
Qed.

Lemma valid_eq (c1 c2 : list Cell) :
  Forall2 cell_eq c1 c2 ->
  length (valid c1) = length (valid c2) /\ (Qsum (valid c1) == Qsum (valid c2))%Q.
Proof.
  induction 1 as [|a b c1 c2 Hab _ [IHl IHs]]; simpl.
  - split; reflexivity.
  - destruct a as [x|], b as [y|]; simpl in *; try contradiction.
    + split; [now f_equal | now rewrite Hab, IHs].
    + now split.
Qed.

(** X12.  When every calendar year holds at most two retained values,
    [ghg] and [glg] with [output = "mean"] return the same number (or both
    NaN): the highest and the lowest values of a year are then the same one
    or two values, and a sum of two terms does not depend on their order. *)
Theorem ghg_eq_glg_few_samples {P : Primitives} (ml : Model)
  (tmin tmax : option Timestamp) (key : string) (fill_method : option string)
  (limit : option Z) (s filled : Series) :
  bykey ml key tmin tmax = Ok s ->
  resample_fill fill_method limit s = Ok filled ->
  (forall y, (length (valid (values (year_group y filled))) <= 2)%nat) ->
  exists h l,
    ghg ml tmin tmax key fill_method limit "mean" = Ok (Scalar h)
    /\ glg ml tmin tmax key fill_method limit "mean" = Ok (Scalar l)
    /\ cell_eq h l.
Proof.
  intros Hk Hf Hfew. unfold ghg, glg.
  rewrite !(gxg_filled ml tmin tmax key fill_method limit s filled Hk Hf).
  destruct (np_any the14or28 filled); simpl.
  - do 2 eexists. split; [reflexivity |]. split; [reflexivity |].
    unfold series_mean. rewrite !resample_a_values.
    assert (F : Forall2 cell_eq
                  (map (fun y => mean_high (filter (fun p => (year (fst p) =? y)%Z)
                                                   (retained filled)))
                       (span (map year (index (retained filled)))))
                  (map (fun y => mean_low (filter (fun p => (year (fst p) =? y)%Z)
                                                  (retained filled)))
                       (span (map year (index (retained filled)))))).
    { induction (span (map year (index (retained filled)))) as [|y ys IH];
        simpl; constructor; [| exact IH].
      destruct (few_values_plain_mean (year_group y filled)
                  (Nat.le_trans _ _ _ (Hfew y) (Nat.le_succ_diag_r 2)))
        as [Hh Hl].
      exact (cell_eq_trans_sym _ _ _ Hh Hl). }
    apply valid_eq in F as [Hl Hs]. now apply mean_valid_eq.
  - exists None, None. repeat split.
Qed.

Lemma ghg_eq_glg_few_samples_witness :
  exists h l,
    ghg (P := rational_only) sampled_model None None "simulated" None None "mean"
    = Ok (Scalar h)
    /\ glg (P := rational_only) sampled_model None None "simulated" None None
           "mean" = Ok (Scalar l)
    /\ cell_eq h l.
Proof.
  refine (ghg_eq_glg_few_samples (P := rational_only) sampled_model None None
            "simulated" None None two_samples _ eq_refl eq_refl _).
  intros y. unfold year_group.
  apply Nat.le_trans with (length (retained (dropna (resample_d mean_valid two_samples)))).
  - clear. generalize (retained (dropna (resample_d mean_valid two_samples))).
    intros r. induction r as [|[t [x|]] r IH]; simpl; [lia | |];
      destruct (year t =? y)%Z; simpl; lia.
  - vm_compute. lia.
Defined.

(** ** Differences on identical series *)

(** X13.  When the simulation and the observations are the same series,
    each of [d_ghg], [d_glg] and [d_gvg] is 0 wherever its quantile
    estimator ([q_ghg], [q_glg], [q_gvg]) returns a number on that series,
    and NaN exactly where the estimator returns NaN. *)
Theorem d_gxg_same_series (ml : Model) (tmin tmax : option Timestamp)
  (s : Series) :
  simulate ml tmin tmax = Ok s ->
  observations ml tmin tmax = Ok s ->
  (exists x z, q_ghg ml tmin tmax "simulated" (94 # 100) = Ok x
               /\ d_ghg ml tmin tmax = Ok z /\ self_difference x z)
  /\ (exists x z, q_glg ml tmin tmax "simulated" (6 # 100) = Ok x
                  /\ d_glg ml tmin tmax = Ok z /\ self_difference x z)
  /\ (exists x z, q_gvg ml tmin tmax "simulated" = Ok x
                  /\ d_gvg ml tmin tmax = Ok z /\ self_difference x z).
Proof.
  intros Hsim Hobs.
  assert (Ks : bykey ml "simulated" tmin tmax = Ok s) by exact Hsim.
  assert (Ko : bykey ml "observations" tmin tmax = Ok s) by exact Hobs.
  assert (Z0 : forall c : Cell,
             self_difference (of_cell c) (fsub (of_cell c) (of_cell c))).
  { intros [q|]; simpl; [| reflexivity].
    exists (q + - q)%Q. split; [reflexivity | ring]. }
  split; [| split].
  - destruct (series_quantile_ok (94 # 100) (resample_d median_valid s) eq_refl)
      as [c Hc].
    assert (Qa : q_ghg ml tmin tmax "simulated" (94 # 100) = Ok (of_cell c)).
    { unfold q_ghg. rewrite Ks. unfold bind at 1. rewrite Hc. reflexivity. }
    assert (Qb : q_ghg ml tmin tmax "observations" (94 # 100) = Ok (of_cell c)).
    { unfold q_ghg. rewrite Ko. unfold bind at 1. rewrite Hc. reflexivity. }
    exists (of_cell c), (fsub (of_cell c) (of_cell c)).
    split; [exact Qa |]. split; [| apply Z0].
    unfold d_ghg. rewrite Qa, Qb. reflexivity.
  - destruct (series_quantile_ok (6 # 100) (resample_d median_valid s) eq_refl)
      as [c Hc].
    assert (Qa : q_glg ml tmin tmax "simulated" (6 # 100) = Ok (of_cell c)).
    { unfold q_glg. rewrite Ks. unfold bind at 1. rewrite Hc. reflexivity. }
    assert (Qb : q_glg ml tmin tmax "observations" (6 # 100) = Ok (of_cell c)).
    { unfold q_glg. rewrite Ko. unfold bind at 1. rewrite Hc. reflexivity. }
    exists (of_cell c), (fsub (of_cell c) (of_cell c)).
    split; [exact Qa |]. split; [| apply Z0].
    unfold d_glg. rewrite Qa, Qb. reflexivity.
  - exists (of_cell (median_valid (spring_values s))),
      (fsub (of_cell (median_valid (spring_values s)))
            (of_cell (median_valid (spring_values s)))).
    split; [exact (q_gvg_value ml tmin tmax _ s Ks) |]. split; [| apply Z0].
    unfold d_gvg. rewrite (q_gvg_value ml tmin tmax _ s Ks),
      (q_gvg_value ml tmin tmax _ s Ko). reflexivity.
Qed.

Lemma d_gxg_same_series_witness :
  exists q,
    d_gvg (constant_model spring_obs spring_obs [] [] [] 0) None None
    = Ok (Fin q) /\ (q == 0)%Q.
Proof.
  destruct (proj2 (proj2 (d_gxg_same_series
                            (constant_model spring_obs spring_obs [] [] [] 0)
                            None None spring_obs eq_refl eq_refl)))
    as [x [z [Hx [Hz Hd]]]].
  assert (Ex : x = Fin (7 # 4)).
  { assert (E : q_gvg (constant_model spring_obs spring_obs [] [] [] 0)
                      None None "simulated" = Ok (Fin (7 # 4)))
      by (vm_compute; reflexivity).
    congruence. }
  subst x. destruct Hd as [q [-> Hq]]. exists q. split; assumption.
Defined.

(** ** The quantile estimators *)

Lemma sorted_nth_le (v : list Q) (i j : nat) :
  Sorted Qle v -> (i <= j)%nat -> (j < length v)%nat ->
  (nth i v 0 <= nth j v 0)%Q.
Proof.
  intros Hs. apply Sorted_StronglySorted in Hs; [| exact Qle_trans].
  revert i j. induction Hs as [|a l Hl IH Ha]; intros i j Hij Hj; simpl in Hj.
  - lia.
  - destruct i as [|i], j as [|j]; simpl; try lia.
    + apply Qle_refl.
    + rewrite Forall_forall in Ha. apply Ha. apply nth_In. lia.
    + apply IH; lia.
Qed.

Lemma Qlen_minus_1 (v : list Q) :
  (Qlen v - 1 == inject_Z (Z.of_nat (length v) - 1))%Q.
Proof. unfold Qlen, Z.sub. rewrite inject_Z_plus. reflexivity. Qed.

Section Quantile.

Variable v : list Q.
Hypothesis Hs : Sorted Qle v.
Hypothesis Hne : v <> [].

Lemma Qlen_minus_1_nonneg : (0 <= Qlen v - 1)%Q.
Proof.
  rewrite Qlen_minus_1.
  assert (1 <= Z.of_nat (length v))%Z
    by (destruct v; [congruence | simpl length; lia]).
  unfold Qle. cbn [Qnum Qden inject_Z]. lia.
Qed.

Lemma pos_bounds q : (0 <= q)%Q -> (q <= 1)%Q ->
  (0 <= q * (Qlen v - 1))%Q /\ (q * (Qlen v - 1) <= inject_Z (Z.of_nat (length v) - 1))%Q.
Proof.
  intros H0 H1.
  pose proof Qlen_minus_1_nonneg as Hn.
  rewrite <- Qlen_minus_1. split.
  - now apply Qmult_le_0_compat.
  - setoid_replace (Qlen v - 1)%Q with (1 * (Qlen v - 1))%Q at 2 by ring.
    now apply Qmult_le_compat_r.
Qed.

Lemma floor_bounds q : (0 <= q)%Q -> (q <= 1)%Q ->
  (0 <= Qfloor (q * (Qlen v - 1)) <= Z.of_nat (length v) - 1)%Z.
Proof.
  intros H0 H1. destruct (pos_bounds q H0 H1) as [Ha Hb]. split.
  - change 0%Z with (Qfloor 0). now apply Qfloor_resp_le.
  - rewrite <- (Qfloor_Z (Z.of_nat (length v) - 1)). now apply Qfloor_resp_le.
Qed.

Lemma lo_hi q : (0 <= q)%Q -> (q <= 1)%Q ->
  let i := Z.to_nat (Qfloor (q * (Qlen v - 1))) in
  (nth i v 0 <= nth (S i) v (nth i v 0))%Q.
Proof.
  intros H0 H1 i. destruct (floor_bounds q H0 H1) as [Ha Hb].
  destruct (Nat.lt_ge_cases (S i) (length v)) as [Hlt|Hge].
  - rewrite (nth_indep v _ 0%Q Hlt). apply sorted_nth_le; [exact Hs | lia | exact Hlt].
  - rewrite (nth_overflow v _ Hge). apply Qle_refl.
Qed.

Lemma Qmult_between (d f : Q) :
  (0 <= d)%Q -> (0 <= f)%Q -> (f <= 1)%Q -> (0 <= d * f)%Q /\ (d * f <= d)%Q.
Proof.
  intros Hd Hf0 Hf1. split.
  - now apply Qmult_le_0_compat.
  - setoid_replace d with (1 * d)%Q at 2 by ring.
    rewrite (Qmult_comm d f). now apply Qmult_le_compat_r.
Qed.

Lemma quantile_between q : (0 <= q)%Q -> (q <= 1)%Q ->
  let i := Z.to_nat (Qfloor (q * (Qlen v - 1))) in
  (nth i v 0 <= quantile_value q v)%Q
  /\ (quantile_value q v <= nth (S i) v (nth i v 0))%Q.
Proof.
  intros H0 H1 i. pose proof (lo_hi q H0 H1) as Hlh. cbv zeta in Hlh.
  fold i in Hlh.
  unfold quantile_value. fold i.
  pose proof (Qfloor_le (q * (Qlen v - 1))) as F1.
  pose proof (Qlt_floor (q * (Qlen v - 1))) as F2.
  rewrite inject_Z_plus in F2. change (inject_Z 1) with 1%Q in F2.
  set (pos := (q * (Qlen v - 1))%Q) in *.
  set (fl := inject_Z (Qfloor pos)) in *.
  set (lo := nth i v 0%Q) in *. set (hi := nth (S i) v lo) in *.
  clearbody hi lo fl pos.
  assert (Hd : (0 <= hi - lo)%Q) by lra.
  assert (Hf0 : (0 <= pos - fl)%Q) by lra.
  assert (Hf1 : (pos - fl <= 1)%Q) by lra.
  destruct (Qmult_between (hi - lo) (pos - fl) Hd Hf0 Hf1) as [P0 P1].
  remember ((hi - lo) * (pos - fl))%Q as p. split; lra.
Qed.

Lemma quantile_value_mono q1 q2 :
  (0 <= q1)%Q -> (q1 <= q2)%Q -> (q2 <= 1)%Q ->
  (quantile_value q1 v <= quantile_value q2 v)%Q.
Proof.
  intros H0 H12 H1.
  assert (H1' : (q1 <= 1)%Q) by lra. assert (H0' : (0 <= q2)%Q) by lra.
  destruct (floor_bounds q1 H0 H1') as [A1 B1].
  destruct (floor_bounds q2 H0' H1) as [A2 B2].
  pose proof Qlen_minus_1_nonneg as Hn.
  assert (Hpos : (q1 * (Qlen v - 1) <= q2 * (Qlen v - 1))%Q) by nra.
  pose proof (Qfloor_resp_le _ _ Hpos) as Hfl.
  destruct (Z.eq_dec (Qfloor (q1 * (Qlen v - 1))) (Qfloor (q2 * (Qlen v - 1)))) as [E|NE].
  - pose proof (lo_hi q1 H0 H1') as Hlh. cbv zeta in Hlh.
    unfold quantile_value. rewrite <- E.
    set (i := Z.to_nat (Qfloor (q1 * (Qlen v - 1)))) in *.
    set (lo := nth i v 0%Q) in *. set (hi := nth (S i) v lo) in *.
    set (fl := inject_Z (Qfloor (q1 * (Qlen v - 1)))) in *.
    pose proof (Qfloor_le (q1 * (Qlen v - 1))) as F1. fold fl in F1.
    clearbody hi lo fl.
    apply Qplus_le_r. rewrite !(Qmult_comm (hi - lo)).
    apply Qmult_le_compat_r; lra.
  - destruct (quantile_between q1 H0 H1') as [_ U1].
    destruct (quantile_between q2 H0' H1) as [L2 _]. cbv zeta in U1, L2.
    set (i1 := Z.to_nat (Qfloor (q1 * (Qlen v - 1)))) in *.
    set (i2 := Z.to_nat (Qfloor (q2 * (Qlen v - 1)))) in *.
    assert (Hi : (S i1 <= i2)%nat) by (unfold i1, i2; lia).
    assert (Hi2 : (i2 < length v)%nat) by (unfold i2; lia).
    apply Qle_trans with (nth (S i1) v (nth i1 v 0%Q)); [exact U1 |].
    apply Qle_trans with (nth i2 v 0%Q); [| exact L2].
    rewrite (nth_indep v _ 0%Q) by lia.
    apply sorted_nth_le; [exact Hs | exact Hi | exact Hi2].
Qed.
End Quantile.

Lemma series_quantile_value (q : Q) (s : Series) :
  (0 <= q)%Q -> (q <= 1)%Q ->
  series_quantile q s
  = Ok (match sort_values (valid (values s)) with
        | [] => None
        | v => Some (quantile_value q v)
        end).
Proof.
  intros H0 H1. unfold series_quantile.
  apply Qle_bool_iff in H0. apply Qle_bool_iff in H1. rewrite H0, H1. simpl.
  destruct (sort_values (valid (values s))); reflexivity.
Qed.

(** X14.  On the series of one key, a quantile estimate for a lower fraction
    is at most the estimate for a higher fraction; with the default
    fractions 0.06 and 0.94, [q_glg <= q_ghg], or both are NaN. *)
Theorem quantile_estimators_ordered (ml : Model) (tmin tmax : option Timestamp)
  (key : string) (s : Series) (q1 q2 : Q) :
  bykey ml key tmin tmax = Ok s ->
  (0 <= q1)%Q -> (q1 <= q2)%Q -> (q2 <= 1)%Q ->
  exists l h,
    q_glg ml tmin tmax key q1 = Ok (of_cell l)
    /\ q_ghg ml tmin tmax key q2 = Ok (of_cell h)
    /\ cell_le l h.
Proof.
  intros Hk H0 H12 H1.
  assert (H1' : (q1 <= 1)%Q) by lra. assert (H0' : (0 <= q2)%Q) by lra.
  unfold q_glg, q_ghg. rewrite Hk. unfold bind at 1 3.
  rewrite (series_quantile_value q1 _ H0 H1'), (series_quantile_value q2 _ H0' H1).
  simpl bind.
  pose proof (sort_values_Sorted (valid (values (resample_d median_valid s)))) as Hs.
  destruct (sort_values (valid (values (resample_d median_valid s)))) as [|x v] eqn:E.
  - exists None, None. repeat split.
  - do 2 eexists. split; [reflexivity |]. split; [reflexivity |]. simpl.
    apply quantile_value_mono; [exact Hs | discriminate | assumption ..].
Qed.

Lemma quantile_estimators_ordered_witness :
  exists l h,
    q_glg two_years_model None None "observations" (6 # 100) = Ok (of_cell l)
    /\ q_ghg two_years_model None None "observations" (94 # 100) = Ok (of_cell h)
    /\ cell_le l h.
Proof.
  refine (quantile_estimators_ordered two_years_model None None "observations"
            two_years (6 # 100) (94 # 100) eq_refl _ _ _); discriminate.
Defined.

Example quantile_ex :
  exists l h,
    q_glg two_years_model None None "observations" (6 # 100) = Ok (Fin l)
    /\ q_ghg two_years_model None None "observations" (94 # 100) = Ok (Fin h)
    /\ (l == 13 # 10)%Q /\ (h == 81 # 10)%Q.
Proof.
  do 2 eexists.
  split; [vm_compute; reflexivity |].
  split; [vm_compute; reflexivity |].
  split; vm_compute; reflexivity.
Qed.

(** ** [summary] over its presets *)

Lemma mapM_app {A B : Type} (f : A -> Result B) (l1 l2 : list A) :
  mapM f (l1 ++ l2)%list
  = (a <- mapM f l1 ;; b <- mapM f l2 ;; Ok (a ++ b)%list).
Proof.
  induction l1 as [|x l1 IH]; simpl.
  - destruct (mapM f l2); reflexivity.
  - destruct (f x) as [y|e]; simpl; [| reflexivity]. rewrite IH.
    destruct (mapM f l1) as [a|e]; simpl; [| reflexivity].
    destruct (mapM f l2) as [b|e]; reflexivity.
Qed.

Lemma mapM_map {A B C : Type} (h : A -> B) (g : B -> Result C) (l : list A) :
  mapM g (map h l) = mapM (fun a => g (h a)) l.
Proof.
  induction l as [|x l IH]; simpl; [reflexivity |]. now rewrite IH.
Qed.

Section SummaryRows.

Context {P : Primitives}.
Variable ml : Model.
Variables tmin tmax : option Timestamp.

(** One row of [summary]: the label and the statistic called by name. *)
Let row (lf : string * string) : Result (string * Float) :=
  v <- getattr ml (snd lf) tmin tmax ;; Ok (fst lf, v).

Let rows_of (l : list (string * string * string)) : list (string * string) :=
  map (fun klf => (snd (fst klf), snd klf)) l.

Lemma summary_rows (selected : string) (l : list (string * string * string)) :
  mapM (fun klf => v <- getattr ml (snd klf) tmin tmax ;; Ok (snd (fst klf), v)) l
  = mapM row (rows_of l).
Proof. unfold rows_of. rewrite mapM_map. reflexivity. Qed.

(** X15.  [summary("all")] is [summary("basic")] followed by
    [summary("dutch")], row for row and value for value; it raises where the
    first of the two that fails raises. *)
Theorem summary_all_concat :
  summary ml "all" tmin tmax
  = (b <- summary ml "basic" tmin tmax ;;
     d <- summary ml "dutch" tmin tmax ;;
     Ok (b ++ d)%list).
Proof.
  unfold summary. cbn [String.eqb Ascii.eqb Bool.eqb bind dict_get output].
  rewrite !(summary_rows "all").
  match goal with
  | |- mapM row (rows_of ?la) = bind (mapM row (rows_of ?lb)) _ =>
      assert (E : rows_of la = (rows_of lb ++ rows_of
        (sorted (map (fun fl => ("", snd fl, fst fl))
                   [("q_ghg", "Gemiddeld Hoge Grondwaterstand");
                    ("q_glg", "Gemiddeld Lage Grondwaterstand");
                    ("q_gvg", "Gemiddelde Voorjaarsgrondwaterstand");
                    ("d_ghg", "Verschil Gemiddeld Hoge Grondwaterstand");
                    ("d_glg", "Verschil Gemiddeld Lage Grondwaterstand");
                    ("d_gvg", "Verschil Gemiddelde Voorjaarsgrondwaterstand")])))%list)
        by (vm_compute; reflexivity)
  end.
  rewrite E, mapM_app. reflexivity.
Qed.

(** X16.  The rows of [summary("basic")] and of [summary("dutch")] come in
    the alphabetical order of their labels, not in the order of the
    dictionaries. *)
Theorem summary_rows_sorted (rows : list (string * Float)) :
  (summary ml "basic" tmin tmax = Ok rows ->
     map fst rows
     = ["Akaike Information Criterion"; "Average Deviation";
        "Bayesian Information Criterion"; "Explained variance percentage";
        "Pearson R^2"; "Root mean squared error"])
  /\ (summary ml "dutch" tmin tmax = Ok rows ->
      map fst rows
      = ["Gemiddeld Hoge Grondwaterstand"; "Gemiddeld Lage Grondwaterstand";
         "Gemiddelde Voorjaarsgrondwaterstand";
         "Verschil Gemiddeld Hoge Grondwaterstand";
         "Verschil Gemiddeld Lage Grondwaterstand";
         "Verschil Gemiddelde Voorjaarsgrondwaterstand"]).
Proof.
  assert (G : forall l rows',
             mapM row l = Ok rows' -> map fst rows' = map fst l).
  { induction l as [|[lb f] l IH]; simpl; intros rows' H.
    - now injection H as <-.
    - unfold row at 1 in H. simpl in H.
      destruct (getattr ml f tmin tmax) as [v|e]; simpl in H; [| discriminate].
      destruct (mapM row l) as [r|e]; simpl in H; [| discriminate].
      injection H as <-. simpl. f_equal. now apply IH. }
  split; intros H; unfold summary in H;
    cbn [String.eqb Ascii.eqb Bool.eqb bind dict_get output] in H;
    rewrite (summary_rows "") in H; apply G in H; rewrite H;
    vm_compute; reflexivity.
Qed.

End SummaryRows.

Lemma summary_rows_sorted_witness :
  exists rows,
    summary (P := rational_only) march_model "dutch" None None = Ok rows
    /\ map fst rows
       = ["Gemiddeld Hoge Grondwaterstand"; "Gemiddeld Lage Grondwaterstand";
          "Gemiddelde Voorjaarsgrondwaterstand";
          "Verschil Gemiddeld Hoge Grondwaterstand";
          "Verschil Gemiddeld Lage Grondwaterstand";
          "Verschil Gemiddelde Voorjaarsgrondwaterstand"].
Proof.
  eexists. split; [vm_compute; reflexivity |].
  refine (proj2 (summary_rows_sorted (P := rational_only) march_model None None _) _).
  vm_compute. reflexivity.
Defined.

(** ** [all] and the registry *)

Section AllRegistry.

Context {P : Primitives}.
Variable ml : Model.
Variables tmin tmax : option Timestamp.

Lemma loc_setitem_new (k : string) (v : Float) (stats : list (string * Float)) :
  ~ In k (map fst stats) -> loc_setitem k v stats = (stats ++ [(k, v)])%list.
Proof.
  intros H. unfold loc_setitem.
  destruct (existsb (fun r => fst r =? k) stats) eqn:E; [| reflexivity].
  exfalso. apply existsb_exists in E as [[k' x] [Hin Hk]].
  apply String.eqb_eq in Hk. simpl in Hk. subst k'.
  apply H. change k with (fst (k, x)). now apply in_map.
Qed.

(** On distinct keys that label no row yet, the loop of [all] appends one row
    per key, or raises where the first statistic raises. *)
Lemma all_loop_rows (ks : list string) (stats : list (string * Float)) :
  NoDup ks ->
  (forall k, In k ks -> ~ In k (map fst stats)) ->
  all_loop ml tmin tmax ks stats
  = (vs <- mapM (fun k => getattr ml k tmin tmax) ks ;;
     Ok (stats ++ combine ks vs)%list).
Proof.
  revert stats. induction ks as [|k r IH]; intros stats Hnd Hnew; simpl.
  - now rewrite app_nil_r.
  - destruct (getattr ml k tmin tmax) as [v|e]; simpl; [| reflexivity].
    rewrite (loc_setitem_new k v stats) by (apply Hnew; now left).
    inversion Hnd as [|k' r' Hk Hr]; subst.
    rewrite IH; [| exact Hr |].
    + destruct (mapM _ r) as [vs|e]; simpl; [| reflexivity].
      now rewrite <- app_assoc.
    + intros k' Hk' Hin. rewrite map_app in Hin. apply in_app_or in Hin as [Hin|Hin].
      * apply (Hnew k'); [now right | exact Hin].
      * simpl in Hin. destruct Hin as [<-|[]]. contradiction.
Qed.

Lemma many_as_mapM (stats : option (list string)) :
  many ml tmin tmax stats
  = (vs <- mapM (fun k => getattr ml k tmin tmax) (many_names stats) ;;
     Ok (mkRow (many_names stats) vs)).
Proof.
  assert (E : many ml tmin tmax stats
              = (row <- many_loop ml (many_names stats) tmin tmax (many_names stats)
                          (repeat NaN (length (many_names stats))) ;;
                 Ok (mkRow (many_names stats) row))).
  { destruct stats as [[|k l]|]; reflexivity. }
  rewrite E. clear E.
  assert (L : length (many_names stats)
              = length (repeat NaN (length (many_names stats))))
    by now rewrite repeat_length.
  rewrite (many_loop_assigned ml tmin tmax _ _ _ L).
  destruct (mapM (fun k => getattr ml k tmin tmax) (many_names stats))
    as [vs|e] eqn:M; simpl; [| reflexivity].
  rewrite (assigned_all ml tmin tmax _ _ L).
  now rewrite (mapM_call_values ml tmin tmax _ _ M).
Qed.

(** X17.  [all] computes the nine statistics of the registry [ops] in its
    order and labels each value with the identifier of the statistic, not
    with its label: it is the row that [many] returns for the keys of [ops],
    turned into a column; it raises where [many] raises. *)
Theorem all_is_many_on_ops :
  all ml tmin tmax
  = (r <- many ml tmin tmax (Some (map fst ops)) ;;
     Ok (combine (columns r) (row0 r)))
  /\ map fst ops
     = ["evp"; "rmse"; "rmsi"; "sse"; "avg_dev"; "rsq"; "rsq_adj"; "bic"; "aic"].
Proof.
  split; [| reflexivity].
  rewrite many_as_mapM. unfold all.
  rewrite all_loop_rows.
  - change (many_names (Some (map fst ops))) with (map fst ops).
    destruct (mapM _ (map fst ops)); reflexivity.
  - simpl. repeat constructor; simpl; intros H;
      repeat (destruct H as [H|H]; [discriminate H |]); exact H.
  - intros k _ H. exact H.
Qed.

End AllRegistry.

Example all_ex :
  exists rows,
    all (P := rational_only) unit_model None None = Ok rows
    /\ map fst rows
       = ["evp"; "rmse"; "rmsi"; "sse"; "avg_dev"; "rsq"; "rsq_adj"; "bic"; "aic"].
Proof. eexists. split; vm_compute; reflexivity. Qed.

(** ** [evp] and a constant offset *)

Lemma Qsum_constant (c : Q) (l : list Q) :
  Forall (fun x => x == c)%Q l -> (Qsum l == c * Qlen l)%Q.
Proof.
  induction 1 as [|x l Hx _ IH].
  - simpl. unfold Qlen. simpl. ring.
  - cbv beta in Hx. change (Qsum (x :: l)) with (x + Qsum l)%Q. rewrite IH.
    unfold Qlen. simpl length. rewrite Nat2Z.inj_succ, <- Z.add_1_r.
    rewrite inject_Z_plus, Hx. ring.
Qed.

Lemma mean_valid_constant (c : Q) (l : list Q) :
  l <> [] -> Forall (fun x => x == c)%Q l ->
  exists m, mean_valid l = Some m /\ (m == c)%Q.
Proof.
  intros Hne Hl. destruct l as [|x l]; [congruence |].
  eexists. split; [reflexivity |].
  rewrite (Qsum_constant c _ Hl). field.
  intros E. pose proof (Qlen_pos (x :: l) Hne) as Hp. rewrite E in Hp.
  now apply Qlt_irrefl in Hp.
Qed.

(** The variance of a series whose values all equal [c] is 0. *)
Lemma np_var_constant (c : Q) (s : Series) :
  valid (values s) <> [] ->
  Forall (fun x => x == c)%Q (valid (values s)) ->
  exists v, np_var s = Fin v /\ (v == 0)%Q.
Proof.
  intros Hne Hc. unfold np_var.
  destruct (mean_valid_constant c _ Hne Hc) as [m [Em Hm]]. rewrite Em.
  destruct (mean_valid_constant 0 (map (fun x => (x - m) * (x - m))%Q
                                       (valid (values s)))) as [v [Ev Hv]].
  - destruct (valid (values s)); [congruence | discriminate].
  - apply Forall_forall. intros y Hy. apply in_map_iff in Hy as [x [<- Hx]].
    rewrite Forall_forall in Hc. rewrite (Hc x Hx), Hm. ring.
  - exists v. rewrite Ev. split; [reflexivity | exact Hv].
Qed.

(** X18.  When every residual is 0 (a perfect fit) and the observations
    have a non-zero variance, [evp] is 100. *)
Theorem evp_perfect_fit (ml : Model) (tmin tmax : option Timestamp)
  (obs res : Series) (vo : Q) :
  observations ml tmin tmax = Ok obs ->
  residuals ml tmin tmax = Ok res ->
  np_var obs = Fin vo -> ~ (vo == 0)%Q ->
  valid (values res) <> [] ->
  Forall (fun x => x == 0)%Q (valid (values res)) ->
  exists e, evp ml tmin tmax = Ok (Fin e) /\ (e == 100)%Q.
Proof.
  intros Hobs Hres Hvo Hnz Hne Hc.
  destruct (np_var_constant 0 res Hne Hc) as [vr [Evr Hvr]].
  assert (Hpos : (0 < vo)%Q).
  { destruct (np_var_cases obs) as [E|[v [E Hv]]]; rewrite Hvo in E;
      [discriminate |].
    assert (Ev : v = vo) by congruence. subst v.
    apply Qle_lt_or_eq in Hv as [Hv|Hv]; [exact Hv |].
    exfalso. apply Hnz. now symmetry. }
  assert (Hz : Qeq_bool vo 0 = false).
  { destruct (Qeq_bool vo 0) eqn:E; [| reflexivity].
    apply Qeq_bool_eq in E. contradiction. }
  assert (Hx : (explained vo vr == 100)%Q).
  { unfold explained. rewrite Hvr. field. exact Hnz. }
  unfold evp. rewrite Hres, Hobs. simpl. rewrite Hvo, Evr.
  unfold fsub, fneg, fadd, fdiv. rewrite Hz. unfold fmul, py_max, fgtb.
  fold (explained vo vr).
  destruct (Qle_bool (explained vo vr) 0) eqn:Ecmp; simpl.
  - apply Qle_bool_iff in Ecmp. rewrite Hx in Ecmp.
    unfold Qle in Ecmp. simpl in Ecmp. lia.
  - exists (explained vo vr). split; [reflexivity | exact Hx].
Qed.

Lemma evp_perfect_fit_witness :
  exists e, evp (constant_model evp_obs evp_obs zero_res zero_res [] 0) None None
            = Ok (Fin e) /\ (e == 100)%Q.
Proof.
  refine (evp_perfect_fit
            (constant_model evp_obs evp_obs zero_res zero_res [] 0) None None
            evp_obs zero_res (32 # 32) eq_refl eq_refl eq_refl _ _ _).
  - discriminate.
  - discriminate.
  - repeat constructor.
Defined.

(** The division by [TSS] in [rsq_adj] raises when the observations do not
    vary. *)
Example rsq_adj_flat_observations :
  rsq_adj (constant_model flat_obs flat_obs evp_res evp_res fit_table 1) None None
  = Raise ZeroDivisionError.
Proof. vm_compute. reflexivity. Qed.

(** An empty series passes the fill step whatever the limit is, and [gxg]
    returns NaN. *)
Example gxg_empty_series :
  gxg (P := rational_only) (constant_model [] [] [] [] [] 0) mean_high None None
      "observations" (Some "ffill") (Some 0%Z) "mean" = Ok (Scalar None).
Proof. reflexivity. Qed.
